(** * pygame-menu: the Theme configuration object and the MenuBar widget

    A shallow embedding of [pygame_menu/themes.py] and of
    [pygame_menu/widgets/widget/menubar.py], and the properties of the two
    that the specification states.

    Python values are embedded as a small universe [pyval]; Python floats
    are binary64 numbers, embedded as Rocq's primitive floats, so that
    [opacity * 255] and [height * 0.6] are computed as the interpreter
    computes them.  Methods that mutate [self] are functions in a state
    monad that keeps the state reached when an exception is raised. *)

From Stdlib Require Import ZArith Floats Lia Bool List.
From stdpp Require Import base option list strings.

Set Default Proof Using "Type".
Set Warnings "-inexact-float,-register-all".
Local Open Scope Z_scope.

(** ** Exceptions, results and the state monad of a method *)

(** Why a [ValueError] was raised. *)
Inductive value_error : Type :=
| UnknownParameter      (* 'parameter Theme.{} does not exist' *)
| NotAVector            (* 'object is not a vector' *)
| NotALengthVector      (* 'object is not a {0}-length vector' *)
| InvalidColorType      (* 'invalid color type {0}, only tuple or list are valid' *)
| InvalidMenubarMode    (* 'invalid menubar mode {0}' *)
| FloatNaNToInt.        (* int(nan) *)

Inductive exn : Type :=
| AssertionError
| ValueError (why : value_error)
| TypeError
| IndexError
| AttributeError
| OverflowError.

Inductive result (A : Type) : Type :=
| Ok (a : A)
| Raise (e : exn).
Arguments Ok {A} a.
Arguments Raise {A} e.

#[global] Instance result_ret : MRet result := fun _ a => Ok a.
#[global] Instance result_bind : MBind result := fun _ _ k r =>
  match r with
  | Ok a => k a
  | Raise e => Raise e
  end.

Definition is_ok {A} (r : result A) : bool :=
  match r with Ok _ => true | Raise _ => false end.

(** [assert b]: the statement [assert b]. *)
Definition assert (b : bool) : result unit :=
  if b then Ok tt else Raise AssertionError.

(** A method body: it starts in a state of [self], emits effects on the
    outside world (drawing, sounds, warnings, callbacks) and either returns
    a value or raises; the state it reached is kept in both cases, as an
    exception does not roll back the assignments made before it. *)
Definition M (S E A : Type) : Type := S -> S * list E * result A.

#[global] Instance M_ret {S E} : MRet (M S E) := fun _ a s => (s, [], Ok a).
#[global] Instance M_bind {S E} : MBind (M S E) := fun _ _ k m s =>
  match m s with
  | (s', w, Ok a) => let '(s'', w', r) := k a s' in (s'', w ++ w', r)
  | (s', w, Raise e) => (s', w, Raise e)
  end.

Definition get {S E} : M S E S := fun s => (s, [], Ok s).
Definition put {S E} (s : S) : M S E unit := fun _ => (s, [], Ok tt).
Definition modify {S E} (f : S -> S) : M S E unit := fun s => (f s, [], Ok tt).
Definition emit {S E} (e : E) : M S E unit := fun s => (s, [e], Ok tt).
Definition raise {S E A} (e : exn) : M S E A := fun s => (s, [], Raise e).
Definition lift {S E A} (r : result A) : M S E A := fun s => (s, [], r).

Definition state_of {S E A} (x : S * list E * result A) : S := x.1.1.
Definition effects_of {S E A} (x : S * list E * result A) : list E := x.1.2.
Definition value_of {S E A} (x : S * list E * result A) : result A := x.2.

(** ** Numbers *)

(** [float(z)]: the binary64 number nearest to [z], ties to even.  (The
    interpreter raises [OverflowError] beyond the range of binary64, where
    this gives an infinity; [int] below refuses an infinity in turn.) *)
Definition float_of_Z (z : Z) : float :=
  SF2Prim (binary_normalize prec emax z 0 false).

(** [int(f)]: truncation toward zero; [int(nan)] raises [ValueError] and
    [int(inf)] raises [OverflowError]. *)
Definition int_of_float (f : float) : result Z :=
  match Prim2SF f with
  | S754_zero _ => Ok 0
  | S754_finite s m e =>
      let v := match e with
               | Z0 => Zpos m
               | Zpos p => Zpos m * 2 ^ Zpos p
               | Zneg p => Zpos m / 2 ^ Zpos p
               end in
      Ok (if s then - v else v)
  | S754_infinity _ => Raise OverflowError
  | S754_nan => Raise (ValueError FloatNaNToInt)
  end.

(** [round(f)] with one argument, in the specification's wording of the
    opacity: the nearest integer, a tie going to the even one. *)
Definition round_of_float (f : float) : result Z :=
  match Prim2SF f with
  | S754_zero _ => Ok 0
  | S754_finite s m e =>
      let v := match e with
               | Z0 => Zpos m
               | Zpos p => Zpos m * 2 ^ Zpos p
               | Zneg p =>
                   let q := Zpos m / 2 ^ Zpos p in
                   let r := Zpos m mod 2 ^ Zpos p in
                   match 2 * r ?= 2 ^ Zpos p with
                   | Lt => q
                   | Gt => q + 1
                   | Eq => if Z.even q then q else q + 1
                   end
               end in
      Ok (if s then - v else v)
  | S754_infinity _ => Raise OverflowError
  | S754_nan => Raise (ValueError FloatNaNToInt)
  end.

(** A Python number: an [int] or a [float]. *)
Inductive num : Type :=
| NInt (z : Z)
| NFloat (f : float).

Definition to_float (n : num) : float :=
  match n with
  | NInt z => float_of_Z z
  | NFloat f => f
  end.

(** Binary arithmetic: on two ints it is exact, otherwise both operands
    are taken to [float] first. *)
Definition num_binop (fz : Z -> Z -> Z) (ff : float -> float -> float)
    (a b : num) : num :=
  match a, b with
  | NInt x, NInt y => NInt (fz x y)
  | _, _ => NFloat (ff (to_float a) (to_float b))
  end.

Definition num_add : num -> num -> num := num_binop Z.add PrimFloat.add.
Definition num_sub : num -> num -> num := num_binop Z.sub PrimFloat.sub.
Definition num_mul : num -> num -> num := num_binop Z.mul PrimFloat.mul.

Definition num_neg (a : num) : num :=
  match a with
  | NInt x => NInt (- x)
  | NFloat f => NFloat (PrimFloat.opp f)
  end.

(** [int(n)] *)
Definition num_int (n : num) : result Z :=
  match n with
  | NInt z => Ok z
  | NFloat f => int_of_float f
  end.

(** [a <= b], [a < b] and [a == b] on numbers; an int is compared with a
    float by its value. *)
Definition num_leb (a b : num) : bool :=
  match a, b with
  | NInt x, NInt y => x <=? y
  | _, _ => PrimFloat.leb (to_float a) (to_float b)
  end.

Definition num_ltb (a b : num) : bool :=
  match a, b with
  | NInt x, NInt y => x <? y
  | _, _ => PrimFloat.ltb (to_float a) (to_float b)
  end.

Definition num_eqb (a b : num) : bool :=
  match a, b with
  | NInt x, NInt y => x =? y
  | _, _ => PrimFloat.eqb (to_float a) (to_float b)
  end.

Declare Scope num_scope.
Delimit Scope num_scope with num.
Bind Scope num_scope with num.
Infix "+" := num_add : num_scope.
Infix "-" := num_sub : num_scope.
Infix "*" := num_mul : num_scope.
Notation "- x" := (num_neg x) : num_scope.
Coercion NInt : Z >-> num.

(** ** Python values *)

(** The values that reach a theme: the builtin types the theme's schema
    names, and instances of [BaseImage], of [widgets.core.Selection] and of
    any other class. *)
Inductive pyval : Type :=
| PNone
| PBool (b : bool)
| PInt (z : Z)
| PFloat (f : float)
| PStr (s : string)
| PTuple (l : list pyval)
| PList (l : list pyval)
| PImage (image : nat)              (* an instance of BaseImage *)
| PSelection (effect : nat) (color : option (list pyval))
                                    (* an instance of widgets.core.Selection *)
| PObject (class : string).         (* an instance of another class *)

(** The builtin and library types [isinstance] is asked about. *)
Inductive pytype : Type := Tbool | Tint | Tfloat | Tstr | Ttuple | Tlist
                          | TBaseImage | TSelection.

(** [isinstance(v, t)]; [bool] is a subclass of [int]. *)
Definition isinstance1 (v : pyval) (t : pytype) : bool :=
  match t, v with
  | Tbool, PBool _ => true
  | Tint, (PInt _ | PBool _) => true
  | Tfloat, PFloat _ => true
  | Tstr, PStr _ => true
  | Ttuple, PTuple _ => true
  | Tlist, PList _ => true
  | TBaseImage, PImage _ => true
  | TSelection, PSelection _ _ => true
  | _, _ => false
  end.

(** [isinstance(v, (t1, ..., tn))] *)
Definition isinstance (v : pyval) (ts : list pytype) : bool :=
  existsb (isinstance1 v) ts.

Definition is_None (v : pyval) : bool :=
  match v with PNone => true | _ => false end.

(** The number a value stands for in arithmetic and comparisons. *)
Definition as_num (v : pyval) : option num :=
  match v with
  | PInt z => Some (NInt z)
  | PBool b => Some (NInt (Z.b2z b))
  | PFloat f => Some (NFloat f)
  | _ => None
  end.

(** [v >= 0] and [v > 0]: [TypeError] when [v] is not a number. *)
Definition py_ge0 (v : pyval) : result bool :=
  match as_num v with
  | Some n => Ok (num_leb (NInt 0) n)
  | None => Raise TypeError
  end.

Definition py_gt0 (v : pyval) : result bool :=
  match as_num v with
  | Some n => Ok (num_ltb (NInt 0) n)
  | None => Raise TypeError
  end.

(** [v != 0]: a value that is not a number differs from 0. *)
Definition py_ne0 (v : pyval) : bool :=
  match as_num v with
  | Some n => negb (num_eqb n (NInt 0))
  | None => true
  end.

(** [v in (z1, ..., zn)] for a tuple of ints: membership by [==]. *)
Definition py_in_ints (v : pyval) (zs : list Z) : bool :=
  match as_num v with
  | Some n => existsb (fun z => num_eqb n (NInt z)) zs
  | None => false
  end.

(** [v[i]] for a literal index [i >= 0]. *)
Definition py_subscript (v : pyval) (i : nat) : result pyval :=
  match v with
  | PTuple l | PList l =>
      match l !! i with
      | Some x => Ok x
      | None => Raise IndexError
      end
  | PStr s =>
      match String.get i s with
      | Some c => Ok (PStr (String c EmptyString))
      | None => Raise IndexError
      end
  | _ => Raise TypeError
  end.

(** [len(v)] *)
Definition py_len (v : pyval) : result Z :=
  match v with
  | PTuple l | PList l => Ok (Z.of_nat (length l))
  | PStr s => Ok (Z.of_nat (String.length s))
  | _ => Raise TypeError
  end.

(** ** Dictionaries *)

(** A [dict] with names as keys: its items in the order of insertion.
    The keyword arguments of a call and the attributes of an object are
    such dictionaries. *)
Record dict : Type := Dict { items : list (string * pyval) }.

Fixpoint items_lookup (k : string) (l : list (string * pyval)) : option pyval :=
  match l with
  | [] => None
  | (k', v) :: rest => if String.eqb k k' then Some v else items_lookup k rest
  end.

Fixpoint items_insert (k : string) (v : pyval) (l : list (string * pyval))
  : list (string * pyval) :=
  match l with
  | [] => [(k, v)]
  | (k', v') :: rest =>
      if String.eqb k k' then (k, v) :: rest else (k', v') :: items_insert k v rest
  end.

Fixpoint items_delete (k : string) (l : list (string * pyval))
  : list (string * pyval) :=
  match l with
  | [] => []
  | (k', v') :: rest =>
      if String.eqb k k' then items_delete k rest else (k', v') :: items_delete k rest
  end.

(** [d.get(k)], [d[k] = v], [del d[k]] and [{}] *)
#[global] Instance dict_lookup : Lookup string pyval dict :=
  fun k d => items_lookup k (items d).
#[global] Instance dict_insert : Insert string pyval dict :=
  fun k v d => Dict (items_insert k v (items d)).
#[global] Instance dict_delete : Delete string dict :=
  fun k d => Dict (items_delete k (items d)).
#[global] Instance dict_empty : Empty dict := Dict [].

(** ** The title bar styles and modes ([menubar.py], file constants) *)

Definition MENUBAR_STYLE_ADAPTIVE : Z := 1000.
Definition MENUBAR_STYLE_SIMPLE : Z := 1001.
Definition MENUBAR_STYLE_TITLE_ONLY : Z := 1002.
Definition MENUBAR_STYLE_TITLE_ONLY_DIAGONAL : Z := 1003.
Definition MENUBAR_STYLE_NONE : Z := 1004.
Definition MENUBAR_STYLE_UNDERLINE : Z := 1005.
Definition MENUBAR_STYLE_UNDERLINE_TITLE : Z := 1006.

Definition _MODE_CLOSE : Z := 1020.
Definition _MODE_BACK : Z := 1021.

Definition menubar_styles : list Z :=
  [MENUBAR_STYLE_ADAPTIVE; MENUBAR_STYLE_SIMPLE; MENUBAR_STYLE_TITLE_ONLY;
   MENUBAR_STYLE_TITLE_ONLY_DIAGONAL; MENUBAR_STYLE_NONE;
   MENUBAR_STYLE_UNDERLINE; MENUBAR_STYLE_UNDERLINE_TITLE].

(** * themes.py *)

Module Themes.

(** ** What the theme takes from the rest of the library *)

(** Modelled from the spec: [pygame_menu.utils.assert_color] is not among
    the sources.  The spec takes a colour to be a 3- or 4-tuple (a list is
    accepted as well) of numbers between 0 and 255; anything else fails the
    assertion. *)
Definition is_channel (v : pyval) : bool :=
  match v with
  | PInt z => (0 <=? z) && (z <=? 255)
  | PFloat f => PrimFloat.leb 0 f && PrimFloat.leb f 255
  | _ => false
  end.

Definition assert_color (v : pyval) : result unit :=
  match v with
  | PTuple l | PList l =>
      assert ((length l =? 3)%nat || (length l =? 4)%nat);;
      assert (forallb is_channel l)
  | _ => Raise AssertionError
  end.

(** Modelled from the spec: [pygame_menu.utils.assert_vector2] is not
    among the sources.  The spec takes a [tuple2] to be exactly 2 numbers. *)
Definition is_number (v : pyval) : bool :=
  match v with
  | PInt _ | PFloat _ => true
  | _ => false
  end.

Definition assert_vector2 (v : pyval) : result unit :=
  match v with
  | PTuple l | PList l =>
      assert (length l =? 2)%nat;;
      assert (forallb is_number l)
  | _ => Raise AssertionError
  end.

(** The other names [themes.py] imports, whose definitions are not among
    the sources: the closed enumerations of positions and alignments, the
    scroll bars of a position, the default font, the default selection
    effect and its [set_color]. *)
Class Library : Type := {
  (** [_utils.assert_position]: member of the enumeration of positions *)
  assert_position : pyval -> result unit;
  (** [_utils.assert_alignment]: member of the enumeration of alignments *)
  assert_alignment : pyval -> result unit;
  (** [get_scrollbars_from_position(p)] *)
  get_scrollbars_from_position : pyval -> result pyval;
  (** [selection.set_color(color)]: the selection effect afterwards *)
  set_color : pyval -> pyval -> result pyval;
  (** [_widgets.HighlightSelection()] *)
  HighlightSelection : pyval;
  FONT_OPEN_SANS : string;
  POSITION_NORTHWEST : string;
  POSITION_SOUTHEAST : string;
  ALIGN_CENTER : string;
}.

(** ** check_menubar_style *)

Definition check_menubar_style (style : pyval) : bool :=
  py_in_ints style menubar_styles.

(** ** Theme._vec_to_tuple *)

Definition _vec_to_tuple (obj : pyval) (check_length : Z) : result pyval :=
  v ← match obj with
      | PTuple l => Ok l
      | PList l => Ok l
      | _ => Raise (ValueError NotAVector)
      end;
  if (check_length >? 0) && negb (Z.of_nat (length v) =? check_length)
  then Raise (ValueError NotALengthVector)
  else Ok (PTuple v).

(** ** Theme._format_opacity *)

Definition _format_opacity (color : pyval) : result pyval :=
  if isinstance color [TBaseImage] then Ok color
  else if is_None color then Ok color
  else match color with
       | PTuple l | PList l =>
           assert_color color;;
           if (length l =? 4)%nat then
             if isinstance color [Ttuple] then Ok color
             else
               c0 ← py_subscript color 0; c1 ← py_subscript color 1;
               c2 ← py_subscript color 2; c3 ← py_subscript color 3;
               Ok (PTuple [c0; c1; c2; c3])
           else if (length l =? 3)%nat then
             c0 ← py_subscript color 0; c1 ← py_subscript color 1;
             c2 ← py_subscript color 2;
             Ok (PTuple [c0; c1; c2; PInt 255])
           else Ok color
       | _ => Raise (ValueError InvalidColorType)
       end.

(** ** Theme._get *)

(** What [_get] is given as [allowed_types]: one of the strings it knows,
    another string, or a type. *)
Inductive valtype : Type :=
| VColor                  (* 'color' *)
| VColorNone              (* 'color_none' *)
| VColorImage             (* 'color_image' *)
| VColorImageNone         (* 'color_image_none' *)
| VPosition               (* 'position' *)
| VAlignment              (* 'alignment' *)
| VTuple2                 (* 'tuple2' *)
| VString (s : string)    (* a string that is none of the above *)
| VType (t : pytype).     (* a type *)

(** Membership in [all_types]. *)
Definition in_all_types (t : valtype) : bool :=
  match t with
  | VString _ | VType _ => false
  | _ => true
  end.

(** [isinstance(value, others)] for a tuple that may hold a string: the
    members are tried in turn, and one that is not a type raises. *)
Fixpoint isinstance_others (value : pyval) (others : list valtype) : result bool :=
  match others with
  | [] => Ok false
  | VType t :: rest =>
      if isinstance1 value t then Ok true else isinstance_others value rest
  | _ :: _ => Raise TypeError
  end.

(** How the loop over [allowed_types] ends: by a [return value] in its
    body, or by running out. *)
Inductive loop_end : Type := Returned | Exhausted.

(** The keyword arguments: a dict from names to values. *)
Abbreviation kwargs := dict.

(** A theme: the attributes of the object. *)
Abbreviation Theme := dict.

(** The methods of a theme have no effect outside of it. *)
Inductive no_effect : Type := .

Section WithLibrary.
Context `{Library}.

Fixpoint check_valtypes (value : pyval) (allowed_types : list valtype)
  : result loop_end :=
  match allowed_types with
  | [] => Ok Exhausted
  | valtype :: rest =>
      e ← match valtype with
          | VColor => assert_color value;; Ok Exhausted
          | VColorNone =>
              if is_None value then Ok Returned
              else assert_color value;; Ok Exhausted
          | VColorImage =>
              if isinstance value [TBaseImage] then Ok Returned
              else assert_color value;; Ok Exhausted
          | VColorImageNone =>
              if is_None value then Ok Returned
              else if isinstance value [TBaseImage] then Ok Returned
              else assert_color value;; Ok Exhausted
          | VPosition => assert_position value;; Ok Exhausted
          | VAlignment => assert_alignment value;; Ok Exhausted
          | VTuple2 => assert_vector2 value;; Ok Exhausted
          | _ => Ok Exhausted
          end;
      match e with
      | Returned => Ok Returned
      | Exhausted => check_valtypes value rest
      end
  end.


(** [_get(params, key, allowed_types, default)]; the state is [params],
    from which the key is popped.  [allowed_types] is the tuple the body
    makes of its argument (the argument itself when it is a tuple, the
    1-tuple of it otherwise). *)
Definition _get (key : string) (allowed_types : list valtype) (default : pyval)
  : M kwargs no_effect pyval :=
  params ← get;
  match params !! key with
  | None => mret default
  | Some value =>
      put (delete key params);;
      match allowed_types with
      | [] => mret value
      | _ =>
          e ← lift (check_valtypes value allowed_types);
          match e with
          | Returned => mret value
          | Exhausted =>
              let others := List.filter (fun t => negb (in_all_types t)) allowed_types in
              match others with
              | [] => mret value
              | _ =>
                  b ← lift (isinstance_others value others);
                  lift (assert b);;
                  mret value
              end
          end
      end
  end.

(** ** Theme.__init__ *)


Definition rgb (r g b : Z) : pyval := PTuple [PInt r; PInt g; PInt b].
Definition rgba (r g b a : Z) : pyval := PTuple [PInt r; PInt g; PInt b; PInt a].
Definition pair_of (x y : Z) : pyval := PTuple [PInt x; PInt y].

(** One assignment [self.attribute = self._get(kwargs, key, allowed_types,
    default)] of the constructor. *)
Record field : Type := Field {
  attribute : string;
  key : string;
  allowed_types : list valtype;
  default : pyval;
}.

Definition number : list valtype := [VType Tint; VType Tfloat].

(** The assignments of [__init__], in the order of the source. *)
Definition fields : list field := [
  (* Menu general *)
  Field "background_color" "background_color" [VColorImage] (rgb 220 220 220);
  Field "cursor_color" "cursor_color" [VColor] (rgb 0 0 0);
  Field "cursor_selection_color" "cursor_selection_color" [VColor] (rgba 30 30 30 120);
  Field "focus_background_color" "focus_background_color" [VColor] (rgba 0 0 0 180);
  Field "readonly_color" "readonly_color" [VColor] (rgb 120 120 120);
  Field "readonly_selected_color" "readonly_selected_color" [VColor] (rgb 190 190 190);
  Field "selection_color" "selection_color" [VColor] (rgb 255 255 255);
  Field "surface_clear_color" "surface_clear_color" [VColor] (rgb 0 0 0);
  (* Menubar/Title *)
  Field "menubar_close_button" "menubar_close_button" [VType Tbool] (PBool true);
  Field "title_background_color" "title_background_color" [VColor] (rgb 70 70 70);
  Field "title_bar_modify_scrollarea" "title_bar_modify_scrollarea" [VType Tbool] (PBool true);
  Field "title_bar_style" "title_bar_style" [VType Tint] (PInt MENUBAR_STYLE_ADAPTIVE);
  Field "title_font" "title_font" [VType Tstr] (PStr FONT_OPEN_SANS);
  Field "title_font_antialias" "title_font_antialias" [VType Tbool] (PBool true);
  Field "title_font_color" "title_font_color" [VColor] (rgb 220 220 220);
  Field "title_font_size" "title_font_size" [VType Tint] (PInt 40);
  Field "title_offset" "title_offset" [VTuple2] (pair_of 5 (-1));
  Field "title_shadow" "title_shadow" [VType Tbool] (PBool false);
  Field "title_shadow_color" "title_shadow_color" [VColor] (rgb 0 0 0);
  Field "title_shadow_offset" "title_shadow_offset" number (PInt 2);
  Field "title_shadow_position" "title_shadow_position" [VPosition] (PStr POSITION_NORTHWEST);
  (* ScrollArea *)
  Field "scrollarea_outer_margin" "scrollarea_outer_margin" [VTuple2] (pair_of 0 0);
  Field "scrollarea_position" "scrollarea_position" [VString "str"] (PStr POSITION_SOUTHEAST);
  (* ScrollBar *)
  Field "scrollbar_color" "scrollbar_color" [VColor] (rgb 220 220 220);
  Field "scrollbar_shadow" "scrollbar_shadow" [VType Tbool] (PBool false);
  Field "scrollbar_shadow_color" "scrollbar_shadow_color" [VColor] (rgb 0 0 0);
  Field "scrollbar_shadow_offset" "scrollbar_shadow_offset" number (PInt 2);
  Field "scrollbar_shadow_position" "scrollbar_shadow_position" [VPosition] (PStr POSITION_NORTHWEST);
  Field "scrollbar_slider_color" "scrollbar_slider_color" [VColor] (rgb 200 200 200);
  Field "scrollbar_slider_pad" "scrollbar_slider_pad" number (PInt 0);
  Field "scrollbar_thick" "scrollbar_thick" number (PInt 20);
  (* Widget *)
  Field "widget_alignment" "widget_alignment" [VAlignment] (PStr ALIGN_CENTER);
  Field "widget_background_color" "widget_background_color" [VColorImageNone] PNone;
  Field "widget_background_inflate" "background_inflate" [VTuple2] (pair_of 0 0);
  Field "widget_font" "widget_font" [VType Tstr] (PStr FONT_OPEN_SANS);
  Field "widget_font_antialias" "widget_font_antialias" [VType Tbool] (PBool true);
  Field "widget_font_background_color" "widget_font_background_color" [VColorNone] PNone;
  Field "widget_font_background_color_from_menu" "widget_font_background_color_from_menu"
        [VType Tbool] (PBool false);
  Field "widget_font_color" "widget_font_color" [VColor] (rgb 70 70 70);
  Field "widget_font_size" "widget_font_size" [VType Tint] (PInt 30);
  Field "widget_margin" "widget_margin" [VTuple2] (pair_of 0 10);
  Field "widget_padding" "widget_padding" number (PInt 0);
  Field "widget_offset" "widget_offset" [VTuple2] (pair_of 0 0);
  Field "widget_selection_effect" "widget_selection_effect" [VType TSelection] HighlightSelection;
  Field "widget_shadow" "widget_shadow" [VType Tbool] (PBool false);
  Field "widget_shadow_color" "widget_shadow_color" [VColor] (rgb 0 0 0);
  Field "widget_shadow_offset" "widget_shadow_offset" number (PInt 2);
  Field "widget_shadow_position" "widget_shadow_position" [VPosition] (PStr POSITION_NORTHWEST)
].

(** The keys the constructor recognises. *)
Definition schema : list string := map key fields.

(** The assignments [fs] made on [self], consuming [kwargs]. *)
Fixpoint assign (fs : list field) (self : Theme) : M kwargs no_effect Theme :=
  match fs with
  | [] => mret self
  | f :: rest =>
      v ← _get (key f) (allowed_types f) (default f);
      assign rest (<[attribute f := v]> self)
  end.

(** The constructor applied to keyword arguments: the theme, or the
    exception it raised. *)
Definition __init__ (kw : kwargs) : result Theme :=
  let '(kw', _, r) := assign fields ∅ kw in
  self ← r;
  (* Upon this, no more kwargs should exist, raise exception if there's more *)
  match items kw' with
  | [] => Ok self
  | invalid_keyword :: _ => Raise (ValueError UnknownParameter)
  end.

(** ** Theme.validate *)

(** [self.name], [self.name = v] and [assert b] inside a method. *)
Definition attr (name : string) : M Theme no_effect pyval :=
  self ← get;
  match self !! name with
  | Some v => mret v
  | None => raise AttributeError
  end.

Definition setattr (name : string) (v : pyval) : M Theme no_effect unit :=
  modify (<[name := v]>).

Definition check (b : bool) : M Theme no_effect unit := lift (assert b).

(** [assert isinstance(self.name, ts)] *)
Definition assert_isinstance (name : string) (ts : list pytype)
  : M Theme no_effect unit :=
  v ← attr name; check (isinstance v ts).

(** [_utils.assert_position(self.name)], [_utils.assert_alignment(self.name)] *)
Definition assert_position_of (name : string) : M Theme no_effect unit :=
  v ← attr name; lift (assert_position v).

Definition assert_alignment_of (name : string) : M Theme no_effect unit :=
  v ← attr name; lift (assert_alignment v).

(** [self.name = self._format_opacity(self.name)] *)
Definition format_color (name : string) : M Theme no_effect unit :=
  v ← attr name; c ← lift (_format_opacity v); setattr name c.

(** [self.name = self._vec_to_tuple(self.name, n)] *)
Definition to_tuple (name : string) (n : Z) : M Theme no_effect unit :=
  v ← attr name; t ← lift (_vec_to_tuple v n); setattr name t.

(** [assert self.name[0] >= 0 and self.name[1] >= 0] *)
Definition assert_both_ge0 (name : string) : M Theme no_effect unit :=
  v ← attr name;
  x ← lift (py_subscript v 0);
  bx ← lift (py_ge0 x);
  if (bx : bool) then
    (v ← attr name;
     y ← lift (py_subscript v 1);
     by_ ← lift (py_ge0 y);
     check by_)
  else check false.

(** [assert self.name > 0] and [assert self.name >= 0] *)
Definition assert_gt0 (name : string) : M Theme no_effect unit :=
  v ← attr name; b ← lift (py_gt0 v); check b.

Definition assert_ge0 (name : string) : M Theme no_effect unit :=
  v ← attr name; b ← lift (py_ge0 v); check b.

(** The colour attributes [validate] formats, in the order of the source. *)
Definition colors : list string := [
  "background_color"; "cursor_color"; "cursor_selection_color";
  "focus_background_color"; "readonly_color"; "readonly_selected_color";
  "scrollbar_color"; "scrollbar_shadow_color"; "scrollbar_slider_color";
  "selection_color"; "surface_clear_color"; "title_background_color";
  "title_font_color"; "title_shadow_color"; "widget_background_color";
  "widget_font_background_color"; "widget_font_color"
].

Fixpoint for_each (f : string -> M Theme no_effect unit) (names : list string)
  : M Theme no_effect unit :=
  match names with
  | [] => mret tt
  | name :: rest => f name;; for_each f rest
  end.

(** The body of [validate] down to the comment [# Color asserts]. *)
Definition validate_settings : M Theme no_effect unit :=
  (* Boolean asserts *)
  assert_isinstance "menubar_close_button" [Tbool];;
  assert_isinstance "title_bar_modify_scrollarea" [Tbool];;
  assert_isinstance "title_font_antialias" [Tbool];;
  assert_isinstance "title_shadow" [Tbool];;
  assert_isinstance "scrollbar_shadow" [Tbool];;
  assert_isinstance "widget_font_antialias" [Tbool];;
  assert_isinstance "widget_font_background_color_from_menu" [Tbool];;
  assert_isinstance "widget_shadow" [Tbool];;
  (* Value type checks *)
  (style ← attr "title_bar_style"; check (check_menubar_style style));;
  assert_isinstance "title_font" [Tstr];;
  assert_isinstance "title_font_size" [Tint];;
  assert_isinstance "title_shadow_offset" [Tint; Tfloat];;
  assert_position_of "title_shadow_position";;
  (p ← attr "scrollarea_position";
   bars ← lift (get_scrollbars_from_position p);
   check (negb (is_None bars)));;
  assert_isinstance "scrollbar_shadow_offset" [Tint; Tfloat];;
  assert_position_of "scrollbar_shadow_position";;
  assert_isinstance "scrollbar_slider_pad" [Tint; Tfloat];;
  assert_isinstance "scrollbar_thick" [Tint; Tfloat];;
  assert_alignment_of "widget_alignment";;
  assert_isinstance "widget_font" [Tstr];;
  assert_isinstance "widget_font_size" [Tint];;
  assert_isinstance "widget_selection_effect" [TSelection];;
  assert_isinstance "widget_shadow_offset" [Tint; Tfloat];;
  assert_position_of "widget_shadow_position";;
  (* Format colors, this converts all color lists to tuples automatically *)
  for_each format_color colors;;
  (* List to tuple *)
  to_tuple "scrollarea_outer_margin" 2;;
  to_tuple "title_offset" 2;;
  to_tuple "widget_background_inflate" 2;;
  to_tuple "widget_margin" 2;;
  (padding ← attr "widget_padding";
   if isinstance padding [Ttuple; Tlist] then
     (t ← lift (_vec_to_tuple padding 0);
      setattr "widget_padding" t;;
      padding ← attr "widget_padding";
      n ← lift (py_len padding);
      check ((2 <=? n) && (n <=? 4)))
   else mret tt);;
  to_tuple "widget_offset" 2;;
  (* Check sizes *)
  assert_both_ge0 "scrollarea_outer_margin";;
  assert_both_ge0 "widget_offset";;
  assert_gt0 "scrollbar_shadow_offset";;
  assert_ge0 "scrollbar_slider_pad";;
  assert_gt0 "scrollbar_thick";;
  assert_gt0 "title_font_size";;
  assert_gt0 "widget_font_size";;
  assert_gt0 "widget_shadow_offset";;
  (* Configs *)
  (effect ← attr "widget_selection_effect";
   color ← attr "selection_color";
   effect' ← lift (set_color effect color);
   setattr "widget_selection_effect" effect').

(** The last statement of [validate]:
    [assert self.focus_background_color[3] != 0]. *)
Definition validate_color_asserts : M Theme no_effect unit :=
  color ← attr "focus_background_color";
  alpha ← lift (py_subscript color 3);
  check (py_ne0 alpha).

Definition validate : M Theme no_effect unit :=
  validate_settings;;
  (* Color asserts *)
  validate_color_asserts.

(** ** Theme.set_background_color_opacity *)

Definition set_background_color_opacity (opacity : pyval)
  : M Theme no_effect unit :=
  check (isinstance opacity [Tfloat]);;
  match opacity with
  | PFloat o =>
      check (PrimFloat.leb 0 o && PrimFloat.leb o 1);;
      color ← attr "background_color";
      c0 ← lift (py_subscript color 0);
      color ← attr "background_color";
      c1 ← lift (py_subscript color 1);
      color ← attr "background_color";
      c2 ← lift (py_subscript color 2);
      a ← lift (int_of_float (PrimFloat.mul o (float_of_Z 255)));
      setattr "background_color" (PTuple [c0; c1; c2; PInt a])
  | _ => raise AssertionError
  end.

(** What [validate] asks of the library for the defaults of the
    constructor: the default positions and alignment are members of their
    enumerations, the default position of the scroll area has scroll bars,
    and the default selection effect is one and takes the default
    selection colour. *)
Definition defaults_accepted : Prop :=
  assert_position (PStr POSITION_NORTHWEST) = Ok tt /\
  (exists bars, get_scrollbars_from_position (PStr POSITION_SOUTHEAST) = Ok bars
                /\ is_None bars = false) /\
  assert_alignment (PStr ALIGN_CENTER) = Ok tt /\
  isinstance HighlightSelection [TSelection] = true /\
  (exists effect, set_color HighlightSelection (rgba 255 255 255 255) = Ok effect).

End WithLibrary.

(** ** A library to run the theme with *)

(** The positions and alignments are taken as strings; the selection
    effect records the colour it is given. *)
Module Sample.

Definition positions : list string :=
  ["position-north"; "position-south"; "position-east"; "position-west";
   "position-northwest"; "position-northeast"; "position-southwest";
   "position-southeast"; "position-center"].

Definition alignments : list string :=
  ["align-center"; "align-left"; "align-right"].

Definition member (names : list string) (v : pyval) : result unit :=
  match v with
  | PStr s => assert (bool_decide (s ∈ names))
  | _ => Raise AssertionError
  end.

#[global] Instance library : Library := {|
  assert_position := member positions;
  assert_alignment := member alignments;
  get_scrollbars_from_position := fun v =>
    match v with
    | PStr s => if bool_decide (s ∈ positions) then Ok (PTuple [v]) else Ok PNone
    | _ => Ok PNone
    end;
  set_color := fun effect color =>
    match effect, color with
    | PSelection e _, PTuple c => Ok (PSelection e (Some c))
    | _, _ => Raise AssertionError
    end;
  HighlightSelection := PSelection 0 None;
  FONT_OPEN_SANS := "opensans_regular";
  POSITION_NORTHWEST := "position-northwest";
  POSITION_SOUTHEAST := "position-southeast";
  ALIGN_CENTER := "align-center";
|}.

(** The theme the constructor builds from no argument at all, and the
    same with a fully transparent focus background. *)
Definition default_theme : Theme :=
  match __init__ (Dict []) with
  | Ok t => t
  | Raise _ => ∅
  end.

Definition transparent_focus_theme : Theme :=
  <["focus_background_color" := rgba 0 0 0 0]> default_theme.

End Sample.
End Themes.


(** * widgets/widget/menubar.py *)

Module Menubar.

(** ** What the bar holds and what it takes from the rest of the library *)

(** A colour held by a widget: a tuple [assert_color] has accepted. *)
Record color : Type := Color {
  red : Z;
  green : Z;
  blue : Z;
  alpha : option Z;
}.

(** What a theme has as [background_color]: a colour or an image. *)
Inductive background : Type :=
| Plain (c : color)
| Image.

(** [pygame.Rect]: integer position and size. *)
Record Rect : Type := {
  x : Z;
  y : Z;
  width : Z;
  height : Z;
}.

Definition left (r : Rect) : Z := x r.
Definition top (r : Rect) : Z := y r.
Definition right (r : Rect) : Z := x r + width r.
Definition bottom (r : Rect) : Z := y r + height r.
Definition centerx (r : Rect) : Z := x r + Z.shiftr (width r) 1.
Definition centery (r : Rect) : Z := y r + Z.shiftr (height r) 1.

(** The truth value of a rect: it has an area. *)
Definition Rect_bool (r : Rect) : bool :=
  negb (width r =? 0) && negb (height r =? 0).

Definition collidepoint (r : Rect) (px py : Z) : bool :=
  (x r <=? px) && (px <? x r + width r) && (y r <=? py) && (py <? y r + height r).

(** A rendered surface, by its size. *)
Record Surface : Type := {
  get_size : Z * Z;
}.

(** The menu that owns the bar, as the bar observes it. *)
Record Menu : Type := {
  get_id : string;
  (** [_top], and whether its [_prev] is set (the menu was opened from
      another one) *)
  _top : option bool;
  (** [_onclose], by name *)
  _onclose : option string;
  (** [get_width()] and [get_width(inner=True)] *)
  get_width : Z;
  get_width_inner : Z;
  (** [get_theme().background_color] *)
  theme_background_color : background;
}.

(** A vertex of the bar's polygon and a vertex of the glyph of the
    back-box. *)
Definition point : Type := num * num.
Definition pixel : Type := Z * Z.

(** The arguments [_render] hashes: the menu id, the position of the
    rect, the title, the colour of the selected font, whether the menu is
    the root, and the visibility. *)
Definition render_key : Type := string * Z * Z * string * color * bool * bool.

#[global] Instance color_eq_dec : EqDecision color.
Proof. solve_decision. Defined.

(** The events [update] looks at. *)
Inductive event : Type :=
| MOUSEBUTTONUP (button : Z) (pos : Z * Z)
| JOYBUTTONDOWN (button : Z)
| FINGERUP (finger_pos : Z * Z)   (* with [get_finger_pos(menu, event)] *)
| OtherEvent.

(** What a method does to the outside of the bar. *)
Inductive effect : Type :=
| Warn (background_menu : bool) (equal : bool)     (* warnings.warn(msg) *)
| FilledPolygon (points : list point) (c : color)  (* gfxdraw.filled_polygon *)
| DrawRect (c : color) (r : Rect) (border : Z)     (* pygame.draw.rect *)
| DrawPolygon (c : color) (points : list pixel)    (* pygame.draw.polygon *)
| Blit (s : Surface) (dest : num * num)            (* surface.blit *)
| CheckMouseover (e : event)                       (* self._check_mouseover(event) *)
| PlayClickMouse                                   (* self._sound.play_click_mouse() *)
| PlayKeyDel                                       (* self._sound.play_key_del() *)
| Apply                                            (* self.apply() *)
| ApplyUpdateCallbacks.                            (* self.apply_update_callbacks() *)

(** The attributes of a bar: those of [Widget] the bar reads or writes,
    then its own. *)
Record MenuBar : Type := {
  _menu : option Menu;
  _rect : Rect;
  _surface : option Surface;
  _title : string;
  _font_color : color;
  _font_selected_color : color;
  _visible : bool;
  _floating : bool;
  _mouse_enabled : bool;
  _joystick_enabled : bool;
  _touchscreen_enabled : bool;
  readonly : bool;
  is_selectable : bool;
  _last_render_hash : option render_key;
  _backbox : bool;
  _backbox_border_width : Z;
  _backbox_pos : option (list pixel);
  _backbox_rect : option Rect;
  _background_color : color;
  _box_mode : Z;
  _modify_scrollarea : bool;
  _offsetx : num;
  _offsety : num;
  _polygon_pos : option (list point);
  _style : Z;
  _width : Z;
}.

(** Assignments to the attributes a method writes. *)
Definition set_rect (v : Rect) (s : MenuBar) : MenuBar :=
  {| _menu := _menu s; _rect := v; _surface := _surface s; _title := _title s;
     _font_color := _font_color s; _font_selected_color := _font_selected_color s;
     _visible := _visible s; _floating := _floating s;
     _mouse_enabled := _mouse_enabled s; _joystick_enabled := _joystick_enabled s;
     _touchscreen_enabled := _touchscreen_enabled s; readonly := readonly s;
     is_selectable := is_selectable s; _last_render_hash := _last_render_hash s;
     _backbox := _backbox s; _backbox_border_width := _backbox_border_width s;
     _backbox_pos := _backbox_pos s; _backbox_rect := _backbox_rect s;
     _background_color := _background_color s; _box_mode := _box_mode s;
     _modify_scrollarea := _modify_scrollarea s; _offsetx := _offsetx s;
     _offsety := _offsety s; _polygon_pos := _polygon_pos s; _style := _style s;
     _width := _width s |}.

Definition set_surface (v : option Surface) (s : MenuBar) : MenuBar :=
  {| _menu := _menu s; _rect := _rect s; _surface := v; _title := _title s;
     _font_color := _font_color s; _font_selected_color := _font_selected_color s;
     _visible := _visible s; _floating := _floating s;
     _mouse_enabled := _mouse_enabled s; _joystick_enabled := _joystick_enabled s;
     _touchscreen_enabled := _touchscreen_enabled s; readonly := readonly s;
     is_selectable := is_selectable s; _last_render_hash := _last_render_hash s;
     _backbox := _backbox s; _backbox_border_width := _backbox_border_width s;
     _backbox_pos := _backbox_pos s; _backbox_rect := _backbox_rect s;
     _background_color := _background_color s; _box_mode := _box_mode s;
     _modify_scrollarea := _modify_scrollarea s; _offsetx := _offsetx s;
     _offsety := _offsety s; _polygon_pos := _polygon_pos s; _style := _style s;
     _width := _width s |}.

Definition set_title_offsets (t : string) (ox oy : num) (s : MenuBar) : MenuBar :=
  {| _menu := _menu s; _rect := _rect s; _surface := _surface s; _title := t;
     _font_color := _font_color s; _font_selected_color := _font_selected_color s;
     _visible := _visible s; _floating := _floating s;
     _mouse_enabled := _mouse_enabled s; _joystick_enabled := _joystick_enabled s;
     _touchscreen_enabled := _touchscreen_enabled s; readonly := readonly s;
     is_selectable := is_selectable s; _last_render_hash := _last_render_hash s;
     _backbox := _backbox s; _backbox_border_width := _backbox_border_width s;
     _backbox_pos := _backbox_pos s; _backbox_rect := _backbox_rect s;
     _background_color := _background_color s; _box_mode := _box_mode s;
     _modify_scrollarea := _modify_scrollarea s; _offsetx := ox;
     _offsety := oy; _polygon_pos := _polygon_pos s; _style := _style s;
     _width := _width s |}.

Definition set_last_render_hash (v : option render_key) (s : MenuBar) : MenuBar :=
  {| _menu := _menu s; _rect := _rect s; _surface := _surface s; _title := _title s;
     _font_color := _font_color s; _font_selected_color := _font_selected_color s;
     _visible := _visible s; _floating := _floating s;
     _mouse_enabled := _mouse_enabled s; _joystick_enabled := _joystick_enabled s;
     _touchscreen_enabled := _touchscreen_enabled s; readonly := readonly s;
     is_selectable := is_selectable s; _last_render_hash := v;
     _backbox := _backbox s; _backbox_border_width := _backbox_border_width s;
     _backbox_pos := _backbox_pos s; _backbox_rect := _backbox_rect s;
     _background_color := _background_color s; _box_mode := _box_mode s;
     _modify_scrollarea := _modify_scrollarea s; _offsetx := _offsetx s;
     _offsety := _offsety s; _polygon_pos := _polygon_pos s; _style := _style s;
     _width := _width s |}.

Definition set_backbox_border_width_ (v : Z) (s : MenuBar) : MenuBar :=
  {| _menu := _menu s; _rect := _rect s; _surface := _surface s; _title := _title s;
     _font_color := _font_color s; _font_selected_color := _font_selected_color s;
     _visible := _visible s; _floating := _floating s;
     _mouse_enabled := _mouse_enabled s; _joystick_enabled := _joystick_enabled s;
     _touchscreen_enabled := _touchscreen_enabled s; readonly := readonly s;
     is_selectable := is_selectable s; _last_render_hash := _last_render_hash s;
     _backbox := _backbox s; _backbox_border_width := v;
     _backbox_pos := _backbox_pos s; _backbox_rect := _backbox_rect s;
     _background_color := _background_color s; _box_mode := _box_mode s;
     _modify_scrollarea := _modify_scrollarea s; _offsetx := _offsetx s;
     _offsety := _offsety s; _polygon_pos := _polygon_pos s; _style := _style s;
     _width := _width s |}.

Definition set_backbox_pos (v : option (list pixel)) (s : MenuBar) : MenuBar :=
  {| _menu := _menu s; _rect := _rect s; _surface := _surface s; _title := _title s;
     _font_color := _font_color s; _font_selected_color := _font_selected_color s;
     _visible := _visible s; _floating := _floating s;
     _mouse_enabled := _mouse_enabled s; _joystick_enabled := _joystick_enabled s;
     _touchscreen_enabled := _touchscreen_enabled s; readonly := readonly s;
     is_selectable := is_selectable s; _last_render_hash := _last_render_hash s;
     _backbox := _backbox s; _backbox_border_width := _backbox_border_width s;
     _backbox_pos := v; _backbox_rect := _backbox_rect s;
     _background_color := _background_color s; _box_mode := _box_mode s;
     _modify_scrollarea := _modify_scrollarea s; _offsetx := _offsetx s;
     _offsety := _offsety s; _polygon_pos := _polygon_pos s; _style := _style s;
     _width := _width s |}.

Definition set_backbox_rect (v : option Rect) (s : MenuBar) : MenuBar :=
  {| _menu := _menu s; _rect := _rect s; _surface := _surface s; _title := _title s;
     _font_color := _font_color s; _font_selected_color := _font_selected_color s;
     _visible := _visible s; _floating := _floating s;
     _mouse_enabled := _mouse_enabled s; _joystick_enabled := _joystick_enabled s;
     _touchscreen_enabled := _touchscreen_enabled s; readonly := readonly s;
     is_selectable := is_selectable s; _last_render_hash := _last_render_hash s;
     _backbox := _backbox s; _backbox_border_width := _backbox_border_width s;
     _backbox_pos := _backbox_pos s; _backbox_rect := v;
     _background_color := _background_color s; _box_mode := _box_mode s;
     _modify_scrollarea := _modify_scrollarea s; _offsetx := _offsetx s;
     _offsety := _offsety s; _polygon_pos := _polygon_pos s; _style := _style s;
     _width := _width s |}.

Definition set_box_mode (v : Z) (s : MenuBar) : MenuBar :=
  {| _menu := _menu s; _rect := _rect s; _surface := _surface s; _title := _title s;
     _font_color := _font_color s; _font_selected_color := _font_selected_color s;
     _visible := _visible s; _floating := _floating s;
     _mouse_enabled := _mouse_enabled s; _joystick_enabled := _joystick_enabled s;
     _touchscreen_enabled := _touchscreen_enabled s; readonly := readonly s;
     is_selectable := is_selectable s; _last_render_hash := _last_render_hash s;
     _backbox := _backbox s; _backbox_border_width := _backbox_border_width s;
     _backbox_pos := _backbox_pos s; _backbox_rect := _backbox_rect s;
     _background_color := _background_color s; _box_mode := v;
     _modify_scrollarea := _modify_scrollarea s; _offsetx := _offsetx s;
     _offsety := _offsety s; _polygon_pos := _polygon_pos s; _style := _style s;
     _width := _width s |}.

Definition set_is_selectable (v : bool) (s : MenuBar) : MenuBar :=
  {| _menu := _menu s; _rect := _rect s; _surface := _surface s; _title := _title s;
     _font_color := _font_color s; _font_selected_color := _font_selected_color s;
     _visible := _visible s; _floating := _floating s;
     _mouse_enabled := _mouse_enabled s; _joystick_enabled := _joystick_enabled s;
     _touchscreen_enabled := _touchscreen_enabled s; readonly := readonly s;
     is_selectable := v; _last_render_hash := _last_render_hash s;
     _backbox := _backbox s; _backbox_border_width := _backbox_border_width s;
     _backbox_pos := _backbox_pos s; _backbox_rect := _backbox_rect s;
     _background_color := _background_color s; _box_mode := _box_mode s;
     _modify_scrollarea := _modify_scrollarea s; _offsetx := _offsetx s;
     _offsety := _offsety s; _polygon_pos := _polygon_pos s; _style := _style s;
     _width := _width s |}.

Definition set_polygon_pos (v : option (list point)) (s : MenuBar) : MenuBar :=
  {| _menu := _menu s; _rect := _rect s; _surface := _surface s; _title := _title s;
     _font_color := _font_color s; _font_selected_color := _font_selected_color s;
     _visible := _visible s; _floating := _floating s;
     _mouse_enabled := _mouse_enabled s; _joystick_enabled := _joystick_enabled s;
     _touchscreen_enabled := _touchscreen_enabled s; readonly := readonly s;
     is_selectable := is_selectable s; _last_render_hash := _last_render_hash s;
     _backbox := _backbox s; _backbox_border_width := _backbox_border_width s;
     _backbox_pos := _backbox_pos s; _backbox_rect := _backbox_rect s;
     _background_color := _background_color s; _box_mode := _box_mode s;
     _modify_scrollarea := _modify_scrollarea s; _offsetx := _offsetx s;
     _offsety := _offsety s; _polygon_pos := v; _style := _style s;
     _width := _width s |}.

(** The names [menubar.py] takes from [Widget] and from the library's
    constants, whose definitions are not among the sources. *)
Class Toolkit : Type := {
  (** [self._render_string(title, color)], with the font of the widget *)
  _render_string : string -> color -> Surface;
  (** [self._apply_transforms()], on the surface of the widget *)
  _apply_transforms : Surface -> Surface;
  (** [self.is_visible()] *)
  is_visible : MenuBar -> bool;
  POSITION_EAST : string;
  JOY_BUTTON_BACK : Z;
}.

(** Modelled from the spec: [Widget._render_hash_changed] is not among the
    sources.  The spec: the render is gated by a memoized hash of the
    arguments; when they are identical to those of the previous call the
    render is skipped, otherwise the new hash is stored and the render is
    done.  The memo holds the arguments themselves. *)
Definition _render_hash_changed (args : render_key) : M MenuBar effect bool :=
  self ← get;
  if bool_decide (_last_render_hash self = Some args) then mret false
  else put (set_last_render_hash (Some args) self);; mret true.

Section WithToolkit.
Context `{Toolkit}.

(** ** MenuBar._check_title_color *)

Definition _check_title_color (background_menu : bool) : M MenuBar effect unit :=
  self ← get;
  let c_back :=
    match background_menu, _menu self with
    | true, Some menu => theme_background_color menu
    | _, _ => Plain (_background_color self)
    end in
  match c_back with
  | Image => mret tt
  | Plain c_back =>
      let tol := 5 in
      let c_dif_1 := Z.abs (red c_back - red (_font_color self)) in
      let c_dif_2 := Z.abs (green c_back - green (_font_color self)) in
      let c_dif_3 := Z.abs (blue c_back - blue (_font_color self)) in
      if (c_dif_1 <? tol) && (c_dif_2 <? tol) && (c_dif_3 <? tol) then
        emit (Warn background_menu
                ((c_dif_1 =? c_dif_2) && (c_dif_2 =? c_dif_3) && (c_dif_3 =? 0)))
      else mret tt
  end.

(** ** MenuBar.get_title_offset *)

Definition get_title_offset (self : MenuBar) : result (Z * Z) :=
  ox ← num_int (_offsetx self);
  oy ← num_int (_offsety self);
  Ok (ox, oy).

(** ** MenuBar.set_backbox_border_width (for an [int] argument) *)

Definition set_backbox_border_width (width : Z) : M MenuBar effect unit :=
  lift (assert (0 <? width));;
  modify (set_backbox_border_width_ width).

(** ** MenuBar._backbox_visible *)

Definition _backbox_visible (self : MenuBar) : bool :=
  _mouse_enabled self && _backbox self &&
  negb ((_box_mode self =? _MODE_CLOSE) &&
        match _menu self with
        | Some menu => bool_decide (_onclose menu = None)
        | None => false
        end).

(** ** MenuBar._draw *)

Definition _draw : M MenuBar effect unit :=
  self ← get;
  match _polygon_pos self with
  | None => raise TypeError
  | Some polygon_pos =>
      (if (2 <? length polygon_pos)%nat
       then emit (FilledPolygon polygon_pos (_background_color self))
       else mret tt);;
      (* Draw backbox if enabled *)
      (if _backbox_visible self then
         match _backbox_rect self with
         | None => raise TypeError
         | Some rect =>
             emit (DrawRect (_font_selected_color self) rect
                     (_backbox_border_width self));;
             match _backbox_pos self with
             | None => raise TypeError
             | Some pos => emit (DrawPolygon (_font_selected_color self) pos)
             end
         end
       else mret tt);;
      match _surface self with
      | None => raise TypeError
      | Some surface =>
          emit (Blit surface ((x (_rect self) + _offsetx self)%num,
                              (y (_rect self) + _offsety self)%num))
      end
  end.

(** ** MenuBar._render *)

(** [not self._menu or not self._menu._top or not self._menu._top._prev]
    for the menu of the bar. *)
Definition menu_prev_condition (menu : Menu) : bool :=
  match _top menu with
  | None => true
  | Some prev => negb prev
  end.

(** The arguments [_render] passes to [_render_hash_changed]. *)
Definition render_args (self : MenuBar) (menu : Menu) : render_key :=
  (get_id menu, x (_rect self), y (_rect self), _title self,
   _font_selected_color self, menu_prev_condition menu, _visible self).

(** The cross of the close button and the arrow of the back button. *)
Definition cross (r : Rect) : list pixel := [
  (left r + 4, top r + 4);
  (centerx r, centery r);
  (right r - 4, top r + 4);
  (centerx r, centery r);
  (right r - 4, bottom r - 4);
  (centerx r, centery r);
  (left r + 4, bottom r - 4);
  (centerx r, centery r);
  (left r + 4, top r + 4)
].

Definition arrow (r : Rect) : list pixel := [
  (left r + 5, centery r);
  (centerx r, top r + 5);
  (centerx r, centery r - 2);
  (right r - 5, centery r - 2);
  (right r - 5, centery r + 2);
  (centerx r, centery r + 2);
  (centerx r, bottom r - 5);
  (left r + 5, centery r)
].

(** The polygon of each style, for the rect [r] of the title, the width
    [w] of the bar and the horizontal offset [ox] of the title. *)
Definition adaptive (r : Rect) (w : Z) (ox : num) : list point :=
  let a := (x r : num, y r : num) in
  let b := (x r + w - 1, y r : num)%num in
  let c := (x r + w - 1, y r + height r * NFloat 0.6)%num in
  let d := (x r + width r + 25 + ox, y r + height r * NFloat 0.6)%num in
  let e := (x r + width r + 5 + ox, y r + height r)%num in
  let f := (x r : num, y r + height r)%num in
  [a; b; c; d; e; f].

Definition simple (r : Rect) (w : Z) : list point :=
  let a := (x r : num, y r : num) in
  let b := (x r + w - 1, y r : num)%num in
  let c := (x r + w - 1, y r + height r)%num in
  let d := (x r : num, y r + height r)%num in
  [a; b; c; d].

Definition title_only (r : Rect) (ox : num) : list point :=
  let a := (x r : num, y r : num) in
  let b := (x r + width r + 5 + ox, y r : num)%num in
  let c := (x r + width r + 5 + ox, y r + height r)%num in
  let d := (x r : num, y r + height r)%num in
  [a; b; c; d].

Definition title_only_diagonal (r : Rect) (ox : num) : list point :=
  let a := (x r : num, y r : num) in
  let b := (x r + width r + 25 + ox, y r : num)%num in
  let c := (x r + width r + 5 + ox, y r + height r)%num in
  let d := (x r : num, y r + height r)%num in
  [a; b; c; d].

Definition none (r : Rect) (w : Z) : list point :=
  let a := (x r : num, y r : num) in
  let b := (x r + w - 1, y r : num)%num in
  [a; b].

Definition underline (r : Rect) (w : Z) (dy : Z) : list point :=
  let a := (x r : num, y r + NFloat 0.91 * height r + dy)%num in
  let b := (x r + w - 1, y r + NFloat 0.91 * height r + dy)%num in
  let c := (x r + w - 1, y r + height r + dy)%num in
  let d := (x r : num, y r + height r + dy)%num in
  [a; b; c; d].

Definition underline_title (r : Rect) (ox : num) (dy : Z) : list point :=
  let a := (x r : num, y r + NFloat 0.91 * height r + dy)%num in
  let b := (x r + width r + 5 + ox, y r + NFloat 0.91 * height r + dy)%num in
  let c := (x r + width r + 5 + ox, y r + height r + dy)%num in
  let d := (x r : num, y r + height r + dy)%num in
  [a; b; c; d].

(** The branch of [_render] on the style: it assigns the polygon, checks
    the colour of the title, and gives [dy] and [cross_size]. *)
Definition render_style : M MenuBar effect (Z * num) :=
  self ← get;
  let r := _rect self in
  if _style self =? MENUBAR_STYLE_ADAPTIVE then
    modify (set_polygon_pos (Some (adaptive r (_width self) (_offsetx self))));;
    _check_title_color false;;
    mret (0, (height r * NFloat 0.6)%num)
  else if _style self =? MENUBAR_STYLE_SIMPLE then
    modify (set_polygon_pos (Some (simple r (_width self))));;
    _check_title_color false;;
    mret (0, (height r : num))
  else if _style self =? MENUBAR_STYLE_TITLE_ONLY then
    modify (set_polygon_pos (Some (title_only r (_offsetx self))));;
    _check_title_color false;;
    mret (0, (height r * NFloat 0.6)%num)
  else if _style self =? MENUBAR_STYLE_TITLE_ONLY_DIAGONAL then
    modify (set_polygon_pos (Some (title_only_diagonal r (_offsetx self))));;
    _check_title_color false;;
    mret (0, (height r * NFloat 0.6)%num)
  else if _style self =? MENUBAR_STYLE_NONE then
    modify (set_polygon_pos (Some (none r (_width self))));;
    _check_title_color true;;
    mret (0, (height r * NFloat 0.6)%num)
  else if _style self =? MENUBAR_STYLE_UNDERLINE then
    modify (set_polygon_pos (Some (underline r (_width self) 4)));;
    _check_title_color true;;
    mret (4, (NFloat 0.6 * height r)%num)
  else if _style self =? MENUBAR_STYLE_UNDERLINE_TITLE then
    modify (set_polygon_pos (Some (underline_title r (_offsetx self) 3)));;
    _check_title_color true;;
    mret (3, (NFloat 0.6 * height r)%num)
  else raise (ValueError InvalidMenubarMode).

(** The rect given to the back box:
    [pygame.Rect(int(...), int(...), int(...), int(...))]. *)
Definition backbox_rect (self : MenuBar) (cross_size : num) : result Rect :=
  let backbox_margin := 4 in
  (* Subtract the scrollarea thickness if float and enabled *)
  let scroll_delta :=
    match _floating self, _menu self with
    | true, Some menu => get_width menu - get_width_inner menu
    | _, _ => 0
    end in
  let r := _rect self in
  bx ← num_int (x r + _width self - cross_size + backbox_margin - scroll_delta)%num;
  by_ ← num_int (y r + backbox_margin)%num;
  bw ← num_int (cross_size - 2 * backbox_margin)%num;
  bh ← num_int (cross_size - 2 * backbox_margin)%num;
  Ok {| x := bx; y := by_; width := bw; height := bh |}.

(** The part of [_render] under [# Create the back box]. *)
Definition render_backbox (cross_size : num) : M MenuBar effect unit :=
  self ← get;
  if _backbox self then
    rect ← lift (backbox_rect self cross_size);
    modify (set_backbox_rect (Some rect));;
    if _box_mode self =? _MODE_CLOSE then
      (* Make a cross for top Menu *)
      modify (set_backbox_pos (Some (cross rect)))
    else if _box_mode self =? _MODE_BACK then
      (* Make a back arrow for sub-menus *)
      modify (set_backbox_pos (Some (arrow rect)))
    else mret tt
  else mret tt.

Definition _render : M MenuBar effect (option bool) :=
  self ← get;
  match _menu self with
  | None => mret None
  | Some menu =>
      changed ← _render_hash_changed (render_args self menu);
      if negb changed then mret (Some true)
      else
        (* Update box mode *)
        modify (set_box_mode (if menu_prev_condition menu
                              then _MODE_CLOSE else _MODE_BACK));;
        self ← get;
        let surface := _render_string (_title self) (_font_selected_color self) in
        modify (set_surface (Some surface));;
        modify (fun self =>
                  set_rect {| x := x (_rect self); y := y (_rect self);
                              width := (get_size surface).1;
                              height := (get_size surface).2 |} self);;
        modify (fun self => set_surface (_apply_transforms <$> _surface self) self);;
        '(dy, cross_size) ← render_style;
        modify (fun self =>
                  set_rect {| x := x (_rect self); y := y (_rect self);
                              width := width (_rect self);
                              height := height (_rect self) + dy |} self);;
        (* Create the back box *)
        render_backbox cross_size;;
        mret None
  end.

(** The bar when [_render], having found the hash changed, reaches the
    branch on the style: the hash is stored, the box mode follows the
    depth of the menu, the title is rendered and the rect has its size. *)
Definition prepared (self : MenuBar) (menu : Menu) : MenuBar :=
  let self := set_last_render_hash (Some (render_args self menu)) self in
  let self := set_box_mode (if menu_prev_condition menu
                            then _MODE_CLOSE else _MODE_BACK) self in
  let surface := _render_string (_title self) (_font_selected_color self) in
  let self := set_surface (Some surface) self in
  let self := set_rect {| x := x (_rect self); y := y (_rect self);
                          width := (get_size surface).1;
                          height := (get_size surface).2 |} self in
  set_surface (_apply_transforms <$> _surface self) self.

(** What the branch of a style comes to: the polygon it assigns, the
    background it compares the title with (that of the menu or that of the
    bar), [dy] and [cross_size]. *)
Definition style_shape (self : MenuBar) : option (list point * bool * Z * num) :=
  let r := _rect self in
  if _style self =? MENUBAR_STYLE_ADAPTIVE then
    Some (adaptive r (_width self) (_offsetx self), false, 0,
          (height r * NFloat 0.6)%num)
  else if _style self =? MENUBAR_STYLE_SIMPLE then
    Some (simple r (_width self), false, 0, (height r : num))
  else if _style self =? MENUBAR_STYLE_TITLE_ONLY then
    Some (title_only r (_offsetx self), false, 0, (height r * NFloat 0.6)%num)
  else if _style self =? MENUBAR_STYLE_TITLE_ONLY_DIAGONAL then
    Some (title_only_diagonal r (_offsetx self), false, 0,
          (height r * NFloat 0.6)%num)
  else if _style self =? MENUBAR_STYLE_NONE then
    Some (none r (_width self), true, 0, (height r * NFloat 0.6)%num)
  else if _style self =? MENUBAR_STYLE_UNDERLINE then
    Some (underline r (_width self) 4, true, 4, (NFloat 0.6 * height r)%num)
  else if _style self =? MENUBAR_STYLE_UNDERLINE_TITLE then
    Some (underline_title r (_offsetx self) 3, true, 3,
          (NFloat 0.6 * height r)%num)
  else None.


(** ** MenuBar.get_scrollbar_style_change *)

(** [self._polygon_pos[i]] *)
Definition polygon_pos_at (i : nat) : M MenuBar effect point :=
  self ← get;
  match _polygon_pos self with
  | None => raise TypeError
  | Some polygon_pos =>
      match polygon_pos !! i with
      | Some p => mret p
      | None => raise IndexError
      end
  end.

Definition get_scrollbar_style_change (position : string)
  : M MenuBar effect (num * (num * num)) :=
  _render;;
  self ← get;
  if negb (_modify_scrollarea self) then mret (NInt 0, (NInt 0, NInt 0))
  else
    if (_style self =? MENUBAR_STYLE_ADAPTIVE) && String.eqb position POSITION_EAST
    then
      p4 ← polygon_pos_at 4;
      p2 ← polygon_pos_at 2;
      let t := (p4.2 - p2.2)%num in
      mret (t, (NInt 0, (- t)%num))
    else mret (NInt 0, (NInt 0, NInt 0)).

(** ** MenuBar.set_title *)

Definition set_title (title : string) (offsetx offsety : num)
  : M MenuBar effect unit :=
  modify (set_title_offsets title offsetx offsety);;
  self ← get;
  match _menu self with
  | Some _ => _render;; mret tt
  | None => mret tt
  end.

(** ** MenuBar.__init__ *)

(** [widget] is [self] as [Widget.__init__] leaves it; the attributes of
    the bar itself are assigned here. *)
Definition __init__ (widget : MenuBar) (title : string) (width : num)
    (background_color : color) (back_box : bool) (mode : Z)
    (modify_scrollarea : bool) (offsetx offsety : num)
  : M MenuBar effect unit :=
  w ← lift (num_int width);
  put {| _menu := _menu widget; _rect := _rect widget; _surface := _surface widget;
         _title := ""; _font_color := _font_color widget;
         _font_selected_color := _font_selected_color widget;
         _visible := _visible widget; _floating := _floating widget;
         _mouse_enabled := _mouse_enabled widget;
         _joystick_enabled := _joystick_enabled widget;
         _touchscreen_enabled := _touchscreen_enabled widget;
         readonly := readonly widget; is_selectable := is_selectable widget;
         _last_render_hash := _last_render_hash widget;
         _backbox := back_box; _backbox_border_width := 1;
         _backbox_pos := None; _backbox_rect := None;
         _background_color := background_color; _box_mode := 0;
         _modify_scrollarea := modify_scrollarea; _offsetx := NInt 0;
         _offsety := NInt 0; _polygon_pos := None; _style := mode;
         _width := w |};;
  set_title title offsetx offsety;;
  modify (set_is_selectable false).

(** ** MenuBar.update *)

(** The body of the loop over the events, from the value of [updated]
    before the event to its value after. *)
Definition update_event (event : event) (updated : bool) : M MenuBar effect bool :=
  self ← get;
  (* Check mouse over *)
  (if _backbox_visible self then emit (CheckMouseover event) else mret tt);;
  match event with
  | MOUSEBUTTONUP button (px, py) =>
      (* User clicks the backbox rect *)
      if _mouse_enabled self && bool_decide (button ∈ [1; 2; 3]) then
        match _backbox_rect self with
        | Some rect =>
            if Rect_bool rect && collidepoint rect px py then
              emit PlayClickMouse;; emit Apply;; mret true
            else mret updated
        | None => mret updated
        end
      else mret updated
  | JOYBUTTONDOWN button =>
      (* User applies joy back button *)
      if _joystick_enabled self then
        if button =? JOY_BUTTON_BACK then
          emit PlayKeyDel;; emit Apply;; mret true
        else mret updated
      else mret updated
  | FINGERUP (px, py) =>
      (* User touches the backbox button *)
      if _touchscreen_enabled self && bool_decide (is_Some (_menu self)) then
        match _backbox_rect self with
        | Some rect =>
            if Rect_bool rect && collidepoint rect px py then
              emit PlayClickMouse;; emit Apply;; mret true
            else mret updated
        | None => mret updated
        end
      else mret updated
  | OtherEvent => mret updated
  end.

Fixpoint update_events (events : list event) (updated : bool)
  : M MenuBar effect bool :=
  match events with
  | [] => mret updated
  | event :: rest =>
      updated ← update_event event updated;
      update_events rest updated
  end.

(** Whether the body of the loop applies the bar for an event, and the
    sound it then plays. *)
Definition applies (self : MenuBar) (event : event) : bool :=
  match event with
  | MOUSEBUTTONUP button (px, py) =>
      _mouse_enabled self && bool_decide (button ∈ [1; 2; 3]) &&
      match _backbox_rect self with
      | Some rect => Rect_bool rect && collidepoint rect px py
      | None => false
      end
  | JOYBUTTONDOWN button => _joystick_enabled self && (button =? JOY_BUTTON_BACK)
  | FINGERUP (px, py) =>
      _touchscreen_enabled self && bool_decide (is_Some (_menu self)) &&
      match _backbox_rect self with
      | Some rect => Rect_bool rect && collidepoint rect px py
      | None => false
      end
  | OtherEvent => false
  end.

Definition sound (event : event) : effect :=
  match event with
  | JOYBUTTONDOWN _ => PlayKeyDel
  | _ => PlayClickMouse
  end.

Definition update (events : list event) : M MenuBar effect bool :=
  self ← get;
  if readonly self || negb (is_visible self) then mret false
  else
    updated ← update_events events false;
    (if (updated : bool) then emit ApplyUpdateCallbacks else mret tt);;
    mret updated.

End WithToolkit.

(** ** A toolkit to run the bar with *)

Module Sample.

(** A font twenty pixels wide and fifty pixels high. *)
#[global] Instance toolkit : Toolkit := {|
  _render_string := fun title _ =>
    {| get_size := (20 * Z.of_nat (String.length title), 50) |};
  _apply_transforms := fun surface => surface;
  is_visible := _visible;
  POSITION_EAST := "position-east";
  JOY_BUTTON_BACK := 1;
|}.

Definition white : color := Color 255 255 255 (Some 255).
Definition grey : color := Color 70 70 70 (Some 255).

Definition menu (root : bool) (onclose : option string) : Menu :=
  {| get_id := "main"; _top := Some (negb root); _onclose := onclose;
     get_width := 400; get_width_inner := 400;
     theme_background_color := Plain (Color 220 220 220 (Some 255)) |}.

(** A bar titled "Menu", 400 pixels wide, placed at the origin of its
    menu and not rendered yet. *)
Definition bar (m : option Menu) (style : Z) (back_box modify_scrollarea : bool)
  : MenuBar :=
  {| _menu := m; _rect := {| x := 0; y := 0; width := 0; height := 0 |};
     _surface := None; _title := "Menu"; _font_color := white;
     _font_selected_color := white; _visible := true; _floating := false;
     _mouse_enabled := true; _joystick_enabled := false;
     _touchscreen_enabled := false; readonly := false; is_selectable := false;
     _last_render_hash := None; _backbox := back_box;
     _backbox_border_width := 1; _backbox_pos := None; _backbox_rect := None;
     _background_color := grey; _box_mode := 0;
     _modify_scrollarea := modify_scrollarea; _offsetx := NInt 5;
     _offsety := NInt (-1); _polygon_pos := None; _style := style;
     _width := 400 |}.

End Sample.

End Menubar.

(** * Properties *)

(** ** Running a method *)

Lemma bind_run {S E A B} (m : M S E A) (k : A -> M S E B) (s : S) :
  (m ≫= k) s =
  match m s with
  | (s', w, Ok a) => let '(s'', w', r) := k a s' in (s'', w ++ w', r)
  | (s', w, Raise e) => (s', w, Raise e)
  end.
Proof. reflexivity. Qed.

(** A bind that returns: its first part returned, then the second did. *)
Lemma bind_ok {S E A B} (m : M S E A) (k : A -> M S E B) s s2 w b :
  (m ≫= k) s = (s2, w, Ok b) ->
  exists s1 w1 a w2,
    m s = (s1, w1, Ok a) /\ k a s1 = (s2, w2, Ok b) /\ w = w1 ++ w2.
Proof.
  rewrite bind_run. destruct (m s) as [[s1 w1] [a|e]]; [|discriminate].
  destruct (k a s1) as [[s2' w2] r] eqn:Hk. intros [= -> <- ->].
  by exists s1, w1, a, w2.
Qed.

(** [m] leaves the part [f] of the state as it is, however it ends. *)
Definition preserves {S E A T} (f : S -> T) (m : M S E A) : Prop :=
  forall s, f (state_of (m s)) = f s.

Lemma preserves_bind {S E A B T} (f : S -> T) (m : M S E A) (k : A -> M S E B) :
  preserves f m -> (forall a, preserves f (k a)) -> preserves f (m ≫= k).
Proof.
  intros Hm Hk s. rewrite bind_run. specialize (Hm s).
  destruct (m s) as [[s1 w1] [a|e]]; [|done].
  specialize (Hk a s1). destruct (k a s1) as [[s2 w2] r].
  unfold state_of in *; simpl in *. congruence.
Qed.

Lemma preserves_ret {S E A T} (f : S -> T) (a : A) : preserves f (mret a : M S E A).
Proof. done. Qed.

Lemma preserves_get {S E T} (f : S -> T) : preserves f (get : M S E S).
Proof. done. Qed.

Lemma preserves_lift {S E A T} (f : S -> T) (r : result A) :
  preserves f (lift r : M S E A).
Proof. done. Qed.

Lemma preserves_raise {S E A T} (f : S -> T) (e : exn) :
  preserves f (raise e : M S E A).
Proof. done. Qed.

Lemma preserves_emit {S E T} (f : S -> T) (e : E) :
  preserves f (emit e : M S E unit).
Proof. done. Qed.

(** A bind that returns, over a first part that preserves [f]. *)
Lemma bind_ok_preserves {S E A B T} (f : S -> T) (m : M S E A)
    (k : A -> M S E B) s s2 w b :
  (m ≫= k) s = (s2, w, Ok b) -> preserves f m ->
  exists s1 a w2, f s1 = f s /\ k a s1 = (s2, w2, Ok b).
Proof.
  intros (s1 & w1 & a & w2 & Hm & Hk & _)%bind_ok Hp.
  exists s1, a, w2. split; [|done]. specialize (Hp s). by rewrite Hm in Hp.
Qed.

(** ** Numbers: [int(opacity * 255)] is defined *)

Lemma digits2_pos_log2 (p : positive) :
  Zpos (SpecFloat.digits2_pos p) = Z.log2 (Zpos p) + 1.
Proof.
  assert (forall q, SpecFloat.digits2_pos q = Pos.size q) as Hs.
  { induction q; simpl; congruence. }
  destruct p; simpl; rewrite ?Hs; lia.
Qed.

Lemma Zdigits2_log2 (m : Z) : 0 < m -> SpecFloat.Zdigits2 m = Z.log2 m + 1.
Proof. destruct m; try lia. intros _. apply digits2_pos_log2. Qed.

Lemma shr_1_bounds (mrs : shr_record) :
  0 <= shr_m mrs -> 0 <= shr_m (shr_1 mrs) <= shr_m mrs.
Proof.
  destruct mrs as [m r s]. simpl. destruct m as [|[p|p|]|p]; simpl; lia.
Qed.

Lemma iter_pos_inv {A} (f : A -> A) (I : A -> Prop) :
  (forall x, I x -> I (f x)) -> forall p x, I x -> I (SpecFloat.iter_pos f p x).
Proof.
  intros Hf. induction p; intros x Hx; simpl; auto.
Qed.

Lemma shr_bounds (mrs : shr_record) (e n : Z) (B : Z) :
  0 <= shr_m mrs <= B ->
  0 <= shr_m (fst (shr mrs e n)) <= B /\ snd (shr mrs e n) <= Z.max e (e + n).
Proof.
  intros Hm. destruct n as [|p|p]; simpl; try (split; [done|lia]).
  split; [|lia].
  apply (iter_pos_inv shr_1 (fun x => 0 <= shr_m x <= B)); [|done].
  intros x Hx. pose proof (shr_1_bounds x). lia.
Qed.

Lemma shr_fexp_bounds (m e : Z) (l : location) :
  0 <= m ->
  0 <= shr_m (fst (shr_fexp prec emax m e l)) <= m /\
  snd (shr_fexp prec emax m e l) <= Z.max e (fexp prec emax (Zdigits2 m + e)).
Proof.
  intros Hm. unfold shr_fexp.
  destruct (shr_bounds (shr_record_of_loc m l) e
              (fexp prec emax (Zdigits2 m + e) - e) m) as [H1 H2].
  { destruct l as [|[]]; simpl; lia. }
  split; [done|]. lia.
Qed.

Lemma round_nearest_even_bounds (m : Z) (l : location) :
  0 <= m -> 0 <= round_nearest_even m l <= m + 1.
Proof.
  intros Hm. destruct l as [|[]]; simpl; try lia. destruct (Z.even m); lia.
Qed.

Lemma Zdigits2_le (m B : Z) : 0 <= m <= B -> 0 < B -> Zdigits2 m <= Z.log2 B + 1.
Proof.
  intros Hm HB. destruct (Z.eq_dec m 0) as [-> | Hne].
  - simpl. pose proof (Z.log2_nonneg B). lia.
  - rewrite Zdigits2_log2 by lia. pose proof (Z.log2_le_mono m B). lia.
Qed.

(** Rounding a positive mantissa of at most 200 digits at an exponent
    that is not positive gives a zero or a finite number. *)
Lemma binary_round_aux_finite (sx : bool) (mx : positive) (ex d : Z) :
  Z.log2 (Zpos mx) + 1 <= d -> d <= 200 -> ex <= 0 ->
  match binary_round_aux prec emax sx (Zpos mx) ex loc_Exact with
  | S754_zero s | S754_finite s _ _ => s = sx
  | _ => False
  end.
Proof.
  intros Hd Hex Hex'. unfold binary_round_aux.
  destruct (shr_fexp_bounds (Zpos mx) ex loc_Exact ltac:(lia)) as [Hm1 He1].
  destruct (shr_fexp prec emax (Zpos mx) ex loc_Exact) as [mrs' e'].
  simpl in Hm1, He1.
  set (m1 := round_nearest_even (shr_m mrs') (loc_of_shr_record mrs')).
  pose proof (round_nearest_even_bounds (shr_m mrs') (loc_of_shr_record mrs')
                ltac:(lia)) as Hr. fold m1 in Hr.
  destruct (shr_fexp_bounds m1 e' loc_Exact ltac:(lia)) as [Hm2 He2].
  destruct (shr_fexp prec emax m1 e' loc_Exact) as [mrs'' e''].
  simpl in Hm2, He2.
  assert (Zdigits2 (Zpos mx) = Z.log2 (Zpos mx) + 1) as Hdg
    by (apply Zdigits2_log2; lia).
  assert (Zdigits2 m1 <= d + 1) as Hdg1.
  { pose proof (Zdigits2_le m1 (2 * Zpos mx) ltac:(lia) ltac:(lia)) as Hle.
    rewrite Z.log2_double in Hle by lia. lia. }
  unfold fexp, FloatOps.prec, emin, FloatOps.emax in *.
  destruct (shr_m mrs'') as [|m|m] eqn:Em; [done| |lia].
  destruct (Z.leb_spec e'' (1024 - 53)); [done|]. pose proof (digits2_pos_log2 mx). lia.
Qed.

(** The product of an opacity between 0 and 1 with 255 is a finite
    number that is not negative, so [int] of it is defined. *)
Lemma opacity_product_finite (o : float) :
  PrimFloat.leb 0 o = true -> PrimFloat.leb o 1 = true ->
  exists a, 0 <= a /\ int_of_float (PrimFloat.mul o (float_of_Z 255)) = Ok a.
Proof.
  intros H0 H1. unfold int_of_float.
  rewrite leb_spec in H0, H1. rewrite mul_spec.
  pose proof (Prim2SF_valid o) as Hv.
  change (Prim2SF (float_of_Z 255)) with (S754_finite false 8972014882652160 (-45)).
  change (Prim2SF 0) with (S754_zero false) in H0.
  change (Prim2SF 1) with (S754_finite false 4503599627370496 (-52)) in H1.
  destruct (Prim2SF o) as [s|s| |s m e]; simpl in H0, H1; try discriminate.
  - exists 0. split; [lia|]. reflexivity.
  - destruct s; try discriminate.
  - destruct s; try discriminate.
    assert (e <= -52) as He.
    { unfold SFleb, SFcompare in H1.
      destruct (Z.compare_spec e (-52)); first [lia | discriminate]. }
    assert (Z.log2 (Zpos m) + 1 <= 53) as Hm.
    { unfold valid_binary, bounded, canonical_mantissa, fexp in Hv.
      apply andb_prop in Hv as [Hc _]. apply Z.eqb_eq in Hc.
      rewrite digits2_pos_log2 in Hc. unfold FloatOps.prec, emin in Hc. lia. }
    unfold SF64mul, SFmul. cbn [xorb].
    pose proof (binary_round_aux_finite false (m * 8972014882652160)
                  (e + -45) 106) as Hr.
    destruct (binary_round_aux prec emax false _ _ loc_Exact) as [s'|s'| |s' m' e'].
    + exists 0. split; [lia|reflexivity].
    + exfalso. apply Hr; try lia.
      rewrite Pos2Z.inj_mul.
      pose proof (Z.log2_mul_above (Zpos m) 8972014882652160 ltac:(lia) ltac:(lia)).
      change (Z.log2 8972014882652160) with 52 in *. lia.
    + exfalso. apply Hr; try lia.
      rewrite Pos2Z.inj_mul.
      pose proof (Z.log2_mul_above (Zpos m) 8972014882652160 ltac:(lia) ltac:(lia)).
      change (Z.log2 8972014882652160) with 52 in *. lia.
    + assert (s' = false) as ->.
      { apply Hr; try lia.
        rewrite Pos2Z.inj_mul.
        pose proof (Z.log2_mul_above (Zpos m) 8972014882652160 ltac:(lia) ltac:(lia)).
        change (Z.log2 8972014882652160) with 52 in *. lia. }
      eexists. split; [|reflexivity].
      destruct e' as [|p|p]; try lia.
      apply Z.div_pos; lia.
Qed.

(** ** Dictionaries *)

Lemma dict_lookup_insert_eq (d : dict) (k : string) (v : pyval) :
  <[k := v]> d !! k = Some v.
Proof.
  destruct d as [l]. unfold lookup, insert, dict_lookup, dict_insert; simpl.
  induction l as [|[k' v'] l IH]; simpl.
  - by rewrite String.eqb_refl.
  - destruct (String.eqb k k') eqn:E; simpl.
    + by rewrite String.eqb_refl.
    + by rewrite E.
Qed.

Lemma dict_lookup_insert_ne (d : dict) (k k' : string) (v : pyval) :
  k <> k' -> <[k' := v]> d !! k = d !! k.
Proof.
  intros Hne. destruct d as [l].
  unfold lookup, insert, dict_lookup, dict_insert; simpl.
  induction l as [|[k0 v0] l IH]; simpl.
  - by apply String.eqb_neq in Hne as ->.
  - destruct (String.eqb k' k0) eqn:E; simpl.
    + apply String.eqb_eq in E as <-. by apply String.eqb_neq in Hne as ->.
    + by rewrite IH.
Qed.

Lemma dict_lookup_delete_ne (d : dict) (k k' : string) :
  k <> k' -> delete k' d !! k = d !! k.
Proof.
  intros Hne. destruct d as [l].
  unfold lookup, delete, dict_lookup, dict_delete; simpl.
  induction l as [|[k0 v0] l IH]; simpl; [done|].
  destruct (String.eqb k' k0) eqn:E; simpl.
  - apply String.eqb_eq in E as <-. by apply String.eqb_neq in Hne as ->.
  - by rewrite IH.
Qed.

Lemma dict_lookup_items (d : dict) (k : string) (v : pyval) :
  d !! k = Some v -> items d <> [].
Proof. destruct d as [[|]]; by intros. Qed.

(** ** themes.py *)

Module ThemeFacts.
Import Themes.

Section Facts.
Context `{Library}.

Lemma format_opacity_3 (color : pyval) (r g b : pyval) :
  color = PTuple [r; g; b] \/ color = PList [r; g; b] ->
  assert_color color = Ok tt ->
  _format_opacity color = Ok (PTuple [r; g; b; PInt 255]).
Proof.
  intros [-> | ->] Hc; unfold _format_opacity; simpl isinstance; simpl is_None;
    cbv iota; rewrite Hc; reflexivity.
Qed.

Lemma format_opacity_4 (color : pyval) (r g b a : pyval) :
  color = PTuple [r; g; b; a] \/ color = PList [r; g; b; a] ->
  assert_color color = Ok tt ->
  _format_opacity color = Ok (PTuple [r; g; b; a]).
Proof.
  intros [-> | ->] Hc; unfold _format_opacity; simpl isinstance; simpl is_None;
    cbv iota; rewrite Hc; reflexivity.
Qed.

End Facts.

(** Running a sequence from a state, one statement after the other. *)
Lemma run_bind {S E A B} (m : M S E A) (k : A -> M S E B) s s1 a r :
  m s = (s1, [], Ok a) -> k a s1 = r -> (m ≫= k) s = r.
Proof.
  intros Hm <-. rewrite bind_run, Hm. by destruct (k a s1) as [[s2 w2] r].
Qed.

Lemma run_lift {S E A} (r : result A) (a : A) (s : S) :
  r = Ok a -> (lift r : M S E A) s = (s, [], Ok a).
Proof. by intros ->. Qed.

Lemma run_check (b : bool) (s : Theme) :
  b = true -> check b s = (s, [], Ok tt).
Proof. by intros ->. Qed.

(** Runs the statements of a method one by one from a given theme; [ext]
    closes what is asked of the library. *)
Ltac exec ext :=
  lazymatch goal with
  | |- (mbind _ _) _ = _ => eapply run_bind; [ exec ext | cbv beta; exec ext ]
  | |- lift _ _ = _ => eapply run_lift; first [ vm_compute; reflexivity | ext ]
  | |- check _ _ = _ => eapply run_check; first [ vm_compute; reflexivity | ext ]
  | |- assert_position_of _ _ = _ => unfold assert_position_of; exec ext
  | |- assert_alignment_of _ _ = _ => unfold assert_alignment_of; exec ext
  | |- assert_isinstance _ _ _ = _ =>
      first [ vm_compute; reflexivity | unfold assert_isinstance; exec ext ]
  | |- _ => vm_compute; reflexivity
  end.

(** The theme built from [background_color=(10, 20, 30)] alone validates,
    and its background colour has become [(10, 20, 30, 255)]. *)
Lemma default_theme_validates `{Library} :
  defaults_accepted ->
  exists t t',
    __init__ (Dict [("background_color", rgb 10 20 30)]) = Ok t /\
    validate t = (t', [], Ok tt) /\
    t' !! "background_color" = Some (rgba 10 20 30 255).
Proof.
  intros (Hp & (bars & Hb & Hn) & Ha & Hs & (effect & He)).
  eexists. eexists. split; [vm_compute; reflexivity|].
  split.
  - unfold validate, validate_settings.
    exec ltac:(first [ exact Hp | exact Hb | exact Ha | exact He | exact Hs
                     | rewrite Hn; reflexivity ]).
  - vm_compute; reflexivity.
Qed.

Lemma sample_defaults_accepted : @defaults_accepted Sample.library.
Proof.
  repeat split; try reflexivity; eexists; try split; vm_compute; reflexivity.
Qed.

(** C3. [_format_opacity] gives every valid 3-channel colour the alpha
    channel 255 and returns the four channels of every valid 4-channel
    tuple or list as a tuple; so the theme constructed from
    [background_color=(10, 20, 30)] has, once validated, the background
    colour [(10, 20, 30, 255)]. *)
Theorem format_opacity_normalizes `{Library} :
  defaults_accepted ->
  (forall r g b : pyval,
     assert_color (PTuple [r; g; b]) = Ok tt ->
     _format_opacity (PTuple [r; g; b]) = Ok (PTuple [r; g; b; PInt 255])) /\
  (forall r g b a : pyval,
     assert_color (PTuple [r; g; b; a]) = Ok tt ->
     _format_opacity (PTuple [r; g; b; a]) = Ok (PTuple [r; g; b; a])) /\
  (forall r g b a : pyval,
     assert_color (PList [r; g; b; a]) = Ok tt ->
     _format_opacity (PList [r; g; b; a]) = Ok (PTuple [r; g; b; a])) /\
  (exists t t',
     __init__ (Dict [("background_color", rgb 10 20 30)]) = Ok t /\
     validate t = (t', [], Ok tt) /\
     t' !! "background_color" = Some (rgba 10 20 30 255)).
Proof.
  intros Hd. repeat split.
  - intros r g b Hc. by apply (format_opacity_3 _ r g b); [left|].
  - intros r g b a Hc. by apply (format_opacity_4 _ r g b a); [left|].
  - intros r g b a Hc. by apply (format_opacity_4 _ r g b a); [right|].
  - by apply default_theme_validates.
Qed.

Lemma format_opacity_normalizes_witness :
  _format_opacity (rgb 10 20 30) = Ok (rgba 10 20 30 255) /\
  _format_opacity (PList [PInt 1; PInt 2; PInt 3; PInt 4]) = Ok (rgba 1 2 3 4).
Proof.
  destruct (@format_opacity_normalizes Sample.library sample_defaults_accepted)
    as (H3 & _ & H4 & _).
  split.
  - apply H3. reflexivity.
  - apply H4. reflexivity.
Defined.

(** *** The constructor and the names it does not know *)

(** [_get] pops its own key and no other. *)
Lemma get_state `{Library} (key0 : string) (types : list valtype)
    (default0 : pyval) (kw : kwargs) :
  state_of (_get key0 types default0 kw) = kw \/
  state_of (_get key0 types default0 kw) = delete key0 kw.
Proof.
  unfold _get. rewrite bind_run. cbn [get].
  destruct (kw !! key0) as [value|]; [|by left]. right.
  rewrite bind_run. cbn [put]. destruct types as [|t types]; [done|].
  rewrite bind_run. unfold lift at 1.
  destruct (check_valtypes value (t :: types)) as [[]|]; try done.
  destruct (List.filter _ (t :: types)); [done|].
  rewrite bind_run. unfold lift at 1.
  destruct (isinstance_others value _) as [b|]; [|done].
  rewrite bind_run. by destruct b.
Qed.

Lemma get_other_key `{Library} (key0 : string) (types : list valtype)
    (default0 : pyval) (kw : kwargs) (k : string) :
  k <> key0 -> state_of (_get key0 types default0 kw) !! k = kw !! k.
Proof.
  intros Hne.
  destruct (get_state key0 types default0 kw) as [-> | ->]; [done|].
  by apply dict_lookup_delete_ne.
Qed.

Lemma assign_other_key `{Library} (fs : list field) (self : Theme)
    (kw : kwargs) (k : string) :
  k ∉ map key fs -> state_of (assign fs self kw) !! k = kw !! k.
Proof.
  revert self kw. induction fs as [|f fs IH]; intros self kw Hk; [done|].
  apply not_elem_of_cons in Hk as [Hne Hk].
  simpl assign. rewrite bind_run.
  pose proof (get_other_key (key f) (allowed_types f) (default f) kw k Hne) as Hg.
  destruct (_get _ _ _ kw) as [[kw1 w1] [v|e]]; [|done].
  specialize (IH (<[attribute f := v]> self) kw1 Hk).
  destruct (assign fs _ kw1) as [[kw2 w2] r].
  unfold state_of in *; simpl in *. congruence.
Qed.

(** C4, as amended.  A configuration with a key outside the schema never
    yields a theme: once the recognised keys have all been consumed
    without an error the constructor raises the [ValueError] of an unknown
    parameter, and otherwise it has already raised the error of the
    recognised key whose value failed its check. *)
Theorem unknown_parameter_rejected `{Library} (kw : kwargs) (k : string) :
  is_Some (kw !! k) -> k ∉ schema ->
  match value_of (assign fields ∅ kw) with
  | Ok _ => __init__ kw = Raise (ValueError UnknownParameter)
  | Raise e => __init__ kw = Raise e
  end.
Proof.
  intros [v Hv] Hk. unfold __init__.
  pose proof (assign_other_key fields ∅ kw k Hk) as Hleft.
  destruct (assign fields ∅ kw) as [[kw' w] [self|e]]; simpl; [|done].
  unfold state_of in Hleft; simpl in Hleft. rewrite Hv in Hleft.
  apply dict_lookup_items in Hleft. by destruct (items kw').
Qed.

Lemma unknown_parameter_rejected_witness :
  @__init__ Sample.library (Dict [("title_font_size", PInt 12); ("colour", rgb 0 0 0)])
  = Raise (ValueError UnknownParameter).
Proof.
  exact (@unknown_parameter_rejected Sample.library
           (Dict [("title_font_size", PInt 12); ("colour", rgb 0 0 0)]) "colour"
           ltac:(by eexists) ltac:(apply (bool_decide_eq_false_1 _); vm_compute; reflexivity)).
Defined.

(** C4, as the claim has it, fails: with a recognised key whose value is
    refused, the constructor raises the assertion error of that key and
    never reaches the unknown one. *)
Lemma unknown_parameter_not_always_value_error :
("bogus" ∉ schema) /\
  @__init__ Sample.library
    (Dict [("menubar_close_button", PStr "yes"); ("bogus", PInt 1)])
  = Raise AssertionError.
Proof.
  split; [|vm_compute; reflexivity].
  apply (bool_decide_eq_false_1 _); vm_compute; reflexivity.
Qed.

(** *** What [validate] does to the focus background colour *)

Lemma preserves_run {S E A T} (f : S -> T) (m : M S E A) s s' w r :
  preserves f m -> m s = (s', w, r) -> f s' = f s.
Proof. intros Hp Hm. specialize (Hp s). by rewrite Hm in Hp. Qed.

Lemma preserves_setattr (n name : string) (v : pyval) :
  n <> name -> preserves (fun s : Theme => s !! n) (setattr name v).
Proof. intros Hne s. by apply dict_lookup_insert_ne. Qed.

(** Proves that a method of the theme leaves an attribute alone. *)
Ltac preserve :=
  repeat first
    [ apply preserves_bind; [|intros]
    | apply preserves_ret | apply preserves_get | apply preserves_lift
    | apply preserves_raise
    | apply preserves_setattr; discriminate
    | progress unfold attr, check, assert_isinstance, assert_position_of,
        assert_alignment_of, format_color, to_tuple, assert_both_ge0,
        assert_gt0, assert_ge0
    | match goal with
      | |- preserves _ (match ?x with _ => _ end) => destruct x
      end ].

(** Peels the statements that leave [f] alone off a run that returned. *)
Ltac peel f H Hc :=
  repeat
    match type of H with
    | (mbind ?k ?m) ?s = _ =>
        let Hp := fresh "Hp" in
        assert (preserves f m) as Hp by (preserve; fail);
        let s1 := fresh "s" in let a := fresh "a" in let w2 := fresh "w" in
        let Heq := fresh "Heq" in let H' := fresh "H" in
        destruct (bind_ok_preserves f m k s _ _ _ H Hp) as (s1 & a & w2 & Heq & H');
        clear H Hp; rename H' into H; cbv beta in H, Heq;
        rewrite <- Heq in Hc; clear Heq; clear s; rename s1 into s
    end.

Definition focus (s : Theme) : option pyval := s !! "focus_background_color".

Lemma format_color_focus (s s' : Theme) w (c : pyval) :
  format_color "focus_background_color" s = (s', w, Ok tt) ->
  focus s = Some c ->
  exists c', _format_opacity c = Ok c' /\ focus s' = Some c'.
Proof.
  unfold format_color, attr, focus. rewrite !bind_run. cbn [get].
  intros H Hc. rewrite Hc in H. cbn in H.
  destruct (_format_opacity c) as [c'|]; [|done]. cbn in H.
  injection H as <- _. exists c'. split; [done|]. apply dict_lookup_insert_eq.
Qed.

(** When the settings are accepted, the focus background colour has been
    formatted once and not touched otherwise. *)
Lemma validate_settings_focus `{Library} (t t' : Theme) w (c : pyval) :
  validate_settings t = (t', w, Ok tt) ->
  t !! "focus_background_color" = Some c ->
  exists c', _format_opacity c = Ok c' /\ t' !! "focus_background_color" = Some c'.
Proof.
  intros Hv Hc. change (focus t = Some c) in Hc.
  change (exists c', _format_opacity c = Ok c' /\ focus t' = Some c').
  unfold validate_settings in Hv.
  peel focus Hv Hc.
  apply bind_ok in Hv as (sa & wa & [] & wb & Hfe & Hrest & _).
  cbn [for_each colors] in Hfe.
  peel focus Hfe Hc.
  apply bind_ok in Hfe as (sb & wc & [] & wd & Hf & Hrest2 & _).
  destruct (format_color_focus _ _ _ _ Hf Hc) as (c' & Hfmt & Hc').
  exists c'. split; [done|].
  assert (focus sa = focus sb) as E1
    by (eapply preserves_run; [|exact Hrest2]; preserve).
  assert (focus t' = focus sa) as E2
    by (eapply preserves_run; [|exact Hrest]; preserve).
  congruence.
Qed.

(** The no-effect methods of a theme emit nothing. *)
Lemma no_effects {A} (x : Theme * list no_effect * result A) :
  effects_of x = [].
Proof. destruct x as [[s [|[] w]] r]; done. Qed.

Lemma format_opacity_asserts (c c' : pyval) (l : list pyval) :
  c = PTuple l \/ c = PList l ->
  _format_opacity c = Ok c' -> assert_color c = Ok tt.
Proof.
  intros Hc Hf.
  destruct Hc as [-> | ->]; unfold _format_opacity in Hf;
    cbn [isinstance existsb isinstance1 is_None orb] in Hf;
    destruct (assert_color _) as [[]|] eqn:E; done.
Qed.

Lemma assert_color_length (c : pyval) (l : list pyval) :
  c = PTuple l \/ c = PList l ->
  assert_color c = Ok tt -> length l = 3%nat \/ length l = 4%nat.
Proof.
  intros Hc Ha.
  assert (assert ((length l =? 3)%nat || (length l =? 4)%nat) = Ok tt) as Hb.
  { destruct Hc as [-> | ->]; cbn [assert_color] in Ha;
      by destruct (assert (_ || _)) as [[]|]. }
  destruct (length l =? 3)%nat eqn:E3; [left; by apply Nat.eqb_eq|].
  destruct (length l =? 4)%nat eqn:E4; [right; by apply Nat.eqb_eq|].
  discriminate Hb.
Qed.

(** A formatted tuple or list has four channels: its own, or its three
    and 255. *)
Lemma format_opacity_channels (c c' : pyval) (l : list pyval) :
  c = PTuple l \/ c = PList l ->
  _format_opacity c = Ok c' ->
  exists r g b a : pyval,
    c' = PTuple [r; g; b; a] /\
    (l = [r; g; b; a] \/ (l = [r; g; b] /\ a = PInt 255)).
Proof.
  intros Hc Hf.
  pose proof (format_opacity_asserts c c' l Hc Hf) as Ha.
  pose proof (assert_color_length c l Hc Ha) as Hl.
  destruct l as [|r [|g [|b [|a [|x l]]]]]; simpl in Hl; try (destruct Hl; discriminate).
  - exists r, g, b, (PInt 255). split; [|by right].
    rewrite (format_opacity_3 c r g b Hc Ha) in Hf. by injection Hf as <-.
  - exists r, g, b, a. split; [|by left].
    rewrite (format_opacity_4 c r g b a Hc Ha) in Hf. by injection Hf as <-.
Qed.

(** The last assertion, on a colour of four channels. *)
Lemma color_asserts_run (t' : Theme) (r g b a : pyval) :
  t' !! "focus_background_color" = Some (PTuple [r; g; b; a]) ->
  validate_color_asserts t'
  = (t', [], if py_ne0 a then Ok tt else Raise AssertionError).
Proof.
  intros Hc'. unfold validate_color_asserts, attr. rewrite !bind_run. cbn [get].
  rewrite Hc'. cbn [mret M_ret]. rewrite bind_run.
  cbn [lift py_subscript lookup list_lookup].
  unfold check, lift, assert. by destruct (py_ne0 a).
Qed.

(** C9. For a theme whose settings [validate] accepts and whose focus
    background colour is a tuple or a list, [validate] raises its last
    assertion exactly when the alpha channel of the formatted colour is 0
    and returns otherwise; a colour of three channels has been given the
    alpha channel 255 and never fails it. *)
Theorem validate_focus_alpha `{Library} (t t' : Theme) (w : list no_effect)
    (c : pyval) (l : list pyval) :
  validate_settings t = (t', w, Ok tt) ->
  t !! "focus_background_color" = Some c ->
  c = PTuple l \/ c = PList l ->
  exists r g b a : pyval,
    (l = [r; g; b; a] \/ (l = [r; g; b] /\ a = PInt 255)) /\
    t' !! "focus_background_color" = Some (PTuple [r; g; b; a]) /\
    validate t = (t', w, if py_ne0 a then Ok tt else Raise AssertionError) /\
    (length l = 3%nat -> validate t = (t', w, Ok tt)).
Proof.
  intros Hv Hc Hl.
  destruct (validate_settings_focus t t' w c Hv Hc) as (c' & Hf & Hc').
  destruct (format_opacity_channels c c' l Hl Hf) as (r & g & b & a & -> & Hch).
  exists r, g, b, a.
  assert (validate t = (t', w, if py_ne0 a then Ok tt else Raise AssertionError))
    as Hval.
  { unfold validate. rewrite bind_run, Hv, (color_asserts_run t' r g b a Hc').
    by rewrite app_nil_r. }
  repeat split; try done.
  intros H3. rewrite Hval.
  destruct Hch as [-> | [_ ->]]; [discriminate H3|reflexivity].
Qed.

Lemma validate_focus_alpha_witness :
  @validate Sample.library Sample.default_theme
  = (state_of (@validate_settings Sample.library Sample.default_theme), [], Ok tt).
Proof.
  destruct (@validate_focus_alpha Sample.library Sample.default_theme
              (state_of (@validate_settings Sample.library Sample.default_theme)) []
              (rgba 0 0 0 180) [PInt 0; PInt 0; PInt 0; PInt 180]
              ltac:(vm_compute; reflexivity) ltac:(vm_compute; reflexivity)
              ltac:(by left))
    as (r & g & b & a & Hl & _ & Hval & _).
  destruct Hl as [Hl | [Hl _]]; [|discriminate Hl].
  injection Hl as <- <- <- <-. exact Hval.
Defined.

(** A fully transparent focus background is refused by the last
    assertion; the same colour without its alpha channel is accepted. *)
Example validate_transparent_focus :
  value_of (@validate Sample.library Sample.transparent_focus_theme)
  = Raise AssertionError /\
  value_of (@validate Sample.library
              (<["focus_background_color" := rgb 0 0 0]> Sample.default_theme))
  = Ok tt.
Proof. split; vm_compute; reflexivity. Qed.

(** *** The opacity of the background *)

(** C2, as amended.  On a theme whose background colour has four
    channels, [set_background_color_opacity] with a float [o] between 0
    and 1 sets the alpha channel to [int(o * 255)], the product truncated
    toward zero, and keeps the other three channels; with a float outside
    of that range (or a NaN), and with any value that is not a float (an
    int as well), it raises the assertion error and leaves the theme as it
    was. *)
Theorem set_background_color_opacity_truncates (t : Theme) (c r g b a0 : pyval) :
  t !! "background_color" = Some c ->
  c = PTuple [r; g; b; a0] \/ c = PList [r; g; b; a0] ->
  (forall o : float,
     PrimFloat.leb 0 o && PrimFloat.leb o 1 = true ->
     exists a : Z,
       0 <= a /\
       int_of_float (PrimFloat.mul o (float_of_Z 255)) = Ok a /\
       set_background_color_opacity (PFloat o) t
       = (<["background_color" := PTuple [r; g; b; PInt a]]> t, [], Ok tt)) /\
  (forall o : float,
     PrimFloat.leb 0 o && PrimFloat.leb o 1 = false ->
     set_background_color_opacity (PFloat o) t = (t, [], Raise AssertionError)) /\
  (forall v : pyval,
     isinstance v [Tfloat] = false ->
     set_background_color_opacity v t = (t, [], Raise AssertionError)).
Proof.
  intros Hc Hl. repeat split.
  - intros o Ho. apply andb_prop in Ho as Ho'. destruct Ho' as [H0 H1].
    destruct (opacity_product_finite o H0 H1) as (a & Ha & Hi).
    exists a. split; [done|]. split; [done|].
    unfold set_background_color_opacity. rewrite bind_run.
    cbn [isinstance existsb isinstance1 orb check lift assert].
    rewrite bind_run, Ho. cbn [check lift assert].
    unfold attr. rewrite !bind_run. cbn [get]. rewrite Hc. cbn [mret M_ret].
    destruct Hl as [-> | ->]; rewrite !bind_run;
      cbn [lift py_subscript lookup list_lookup]; rewrite !bind_run; cbn [get];
      rewrite Hc; cbn [mret M_ret]; rewrite !bind_run;
      cbn [lift py_subscript lookup list_lookup]; rewrite !bind_run; cbn [get];
      rewrite Hc; cbn [mret M_ret]; rewrite !bind_run;
      cbn [lift py_subscript lookup list_lookup]; rewrite !bind_run;
      unfold lift at 1; rewrite Hi; reflexivity.
  - intros o Ho. unfold set_background_color_opacity. rewrite bind_run.
    cbn [isinstance existsb isinstance1 orb check lift assert].
    rewrite bind_run, Ho. reflexivity.
  - intros v Hv. unfold set_background_color_opacity. rewrite bind_run.
    unfold check at 1. rewrite Hv. reflexivity.
Qed.

Lemma set_background_color_opacity_truncates_witness :
  set_background_color_opacity (PFloat 0.25)
    (Dict [("background_color", rgba 10 20 30 255)])
  = (Dict [("background_color", rgba 10 20 30 63)], [], Ok tt).
Proof.
  destruct (set_background_color_opacity_truncates
              (Dict [("background_color", rgba 10 20 30 255)])
              (rgba 10 20 30 255) (PInt 10) (PInt 20) (PInt 30) (PInt 255)
              eq_refl (or_introl eq_refl)) as (Hin & _ & _).
  destruct (Hin 0.25%float eq_refl) as (a & _ & Ha & Hs).
  vm_compute in Ha. injection Ha as <-. exact Hs.
Defined.

(** C2, as the claim has it, fails: an opacity of one half gives the
    alpha channel 127, which is not [round(0.5 * 255) = 128], and the
    integer opacity 1 is refused although it lies between 0 and 1. *)
Lemma set_background_color_opacity_does_not_round :
  set_background_color_opacity (PFloat 0.5)
    (Dict [("background_color", rgba 10 20 30 255)])
  = (Dict [("background_color", rgba 10 20 30 127)], [], Ok tt) /\
  round_of_float (PrimFloat.mul 0.5 (float_of_Z 255)) = Ok 128 /\
  set_background_color_opacity (PInt 1)
    (Dict [("background_color", rgba 10 20 30 255)])
  = (Dict [("background_color", rgba 10 20 30 255)], [], Raise AssertionError).
Proof. repeat split; vm_compute; reflexivity. Qed.

(** *** More of the theme *)

Section More.
Context `{Library}.

(** *** Vectors and colours *)

(** [_vec_to_tuple] returns the items of a tuple or of a list, as a
    tuple, of the length asked for when one is; on its result it changes
    nothing.  It never raises anything but a [ValueError]. *)
Theorem vec_to_tuple_spec (obj : pyval) (check_length : Z) :
  (forall t, _vec_to_tuple obj check_length = Ok t ->
             exists l, t = PTuple l /\ (obj = PTuple l \/ obj = PList l) /\
                       (0 < check_length -> Z.of_nat (length l) = check_length) /\
                       _vec_to_tuple t check_length = Ok t) /\
  (forall e, _vec_to_tuple obj check_length = Raise e ->
             exists why, e = ValueError why).
Proof.
  unfold _vec_to_tuple. split.
  - intros t Ht.
    assert (exists l, (obj = PTuple l \/ obj = PList l) /\
                      (if (check_length >? 0)
                          && negb (Z.of_nat (length l) =? check_length)
                       then Raise (ValueError NotALengthVector)
                       else Ok (PTuple l)) = Ok t) as (l & Hobj & Hl).
    { destruct obj; try discriminate Ht; eauto. }
    clear Ht. destruct (_ && _) eqn:Hc; [discriminate Hl|].
    injection Hl as <-. exists l. repeat split; try done.
    + intros Hpos. apply andb_false_iff in Hc as [Hc|Hc]; [lia|].
      apply negb_false_iff, Z.eqb_eq in Hc. done.
    + cbn. by rewrite Hc.
  - intros e He. destruct obj; cbn in He;
      try (injection He as <-; eauto);
      destruct (_ && _); try discriminate He; injection He as <-; eauto.
Qed.

Lemma format_opacity_again (c c' : pyval) :
  _format_opacity c = Ok c' -> _format_opacity c' = Ok c'.
Proof.
  intros Hf.
  assert ((exists l, c = PTuple l \/ c = PList l) \/ c' = c) as Hc.
  { unfold _format_opacity in Hf.
    destruct c; cbn in Hf; try discriminate Hf; try (right; congruence);
      left; eauto. }
  destruct Hc as [[l Hl]|Hc]; [|by subst c'].
  pose proof (format_opacity_asserts c c' l Hl Hf) as Ha.
  destruct (format_opacity_channels c c' l Hl Hf) as (r & g & b & a & -> & Hch).
  apply (format_opacity_4 _ r g b a); [by left|].
  assert (forallb is_channel l = true) as Hall.
  { destruct Hl as [-> | ->]; cbn [assert_color] in Ha;
      destruct (assert (_ || _)) as [[]|]; try discriminate Ha; cbn in Ha;
      by destruct (forallb is_channel l). }
  cbn [assert_color length Nat.eqb orb].
  destruct Hch as [-> | [-> ->]]; cbn in Hall |- *.
  - by rewrite Hall.
  - apply andb_prop in Hall as [Hr Hall]. apply andb_prop in Hall as [Hg Hall].
    apply andb_prop in Hall as [Hb _]. by rewrite Hr, Hg, Hb.
Qed.

(** [_format_opacity] is idempotent: what it returns (an image, [None]
    or a colour of four channels) it returns unchanged when applied
    again, so a second [validate] does not change the colours. *)
Theorem format_opacity_idempotent (c c' : pyval) :
  _format_opacity c = Ok c' ->
  _format_opacity c' = Ok c' /\
  (isinstance c' [TBaseImage] = true \/ c' = PNone \/
   exists r g b a, c' = PTuple [r; g; b; a]).
Proof.
  intros Hf. split; [by apply (format_opacity_again c)|].
  unfold _format_opacity in Hf.
  destruct c; cbn in Hf; try discriminate Hf;
    try (injection Hf as <-; by auto).
  - destruct (format_opacity_channels (PTuple l) c' l (or_introl eq_refl))
      as (r & g & b & a & -> & _); [|by eauto 10].
    unfold _format_opacity. by cbn.
  - destruct (format_opacity_channels (PList l) c' l (or_intror eq_refl))
      as (r & g & b & a & -> & _); [|by eauto 10].
    unfold _format_opacity. by cbn.
Qed.

(** *** The constructor *)

Lemma get_value (key0 : string) (types : list valtype) (default0 : pyval)
    (kw kw' : kwargs) w (v : pyval) :
  _get key0 types default0 kw = (kw', w, Ok v) ->
  v = from_option id default0 (kw !! key0).
Proof.
  unfold _get. rewrite bind_run. cbn [get].
  destruct (kw !! key0) as [value|]; [|by intros [= _ _ <-]].
  rewrite bind_run. cbn [put from_option id]. destruct types as [|t types].
  { by intros [= _ _ <-]. }
  rewrite bind_run. unfold lift at 1.
  destruct (check_valtypes value (t :: types)) as [[]|]; try done.
  { by intros [= _ _ <-]. }
  destruct (List.filter _ (t :: types)); [by intros [= _ _ <-]|].
  rewrite bind_run. unfold lift at 1.
  destruct (isinstance_others value _) as [b|]; [|done].
  rewrite bind_run. destruct b; [|done]. by intros [= _ _ <-].
Qed.

Lemma assign_values (fs : list field) (self : Theme) (kw kw' : kwargs) w
    (t : Theme) :
  NoDup (map key fs) -> NoDup (map attribute fs) ->
  assign fs self kw = (kw', w, Ok t) ->
  (forall f, f ∈ fs ->
             t !! attribute f = Some (from_option id (default f) (kw !! key f))) /\
  (forall a, a ∉ map attribute fs -> t !! a = self !! a).
Proof.
  revert self kw w. induction fs as [|f fs IH]; intros self kw w Hk Ha Has.
  - injection Has as _ _ <-. split; [|done]. intros f Hf. by apply elem_of_nil in Hf.
  - cbn [map] in Hk, Ha. apply NoDup_cons in Hk as [Hkf Hk].
    apply NoDup_cons in Ha as [Haf Ha].
    cbn [assign] in Has.
    apply bind_ok in Has as (kw1 & w1 & v & w2 & Hg & Has & _).
    destruct (IH _ _ _ Hk Ha Has) as [IH1 IH2].
    pose proof (get_value _ _ _ _ _ _ _ Hg) as Hv.
    split.
    + intros g Hg'. apply elem_of_cons in Hg' as [-> | Hg'].
      * rewrite (IH2 _ Haf), dict_lookup_insert_eq. by rewrite Hv.
      * rewrite (IH1 g Hg'). do 2 f_equal.
        pose proof (get_other_key (key f) (allowed_types f) (default f) kw (key g))
          as Ho.
        rewrite Hg in Ho. apply Ho. intros He. apply Hkf. rewrite <- He.
        apply list_elem_of_fmap. by exists g.
    + intros a Hn. cbn [map] in Hn. apply not_elem_of_cons in Hn as [Hne Hn].
      rewrite (IH2 a Hn). by apply dict_lookup_insert_ne.
Qed.

Lemma fields_distinct :
  NoDup (map key fields) /\ NoDup (map attribute fields).
Proof.
  split; apply (bool_decide_unpack _); vm_compute; reflexivity.
Qed.

Lemma init_values (kw : kwargs) (t : Theme) :
  __init__ kw = Ok t ->
  (forall f, f ∈ fields ->
             t !! attribute f = Some (from_option id (default f) (kw !! key f))) /\
  (forall a, a ∉ map attribute fields -> t !! a = None) /\
  (forall k, is_Some (kw !! k) -> k ∈ schema).
Proof.
  unfold __init__. intros Hi.
  destruct (assign fields ∅ kw) as [[kw' w] [self|e]] eqn:Has; [|discriminate Hi].
  cbn in Hi. destruct (items kw') eqn:Hit; [|discriminate Hi].
  injection Hi as <-.
  destruct fields_distinct as [Hk Ha].
  destruct (assign_values fields ∅ kw kw' w self Hk Ha Has) as [H1 H2].
  split; [done|]. split; [intros a Hn; by rewrite (H2 a Hn)|].
  intros k [v Hv]. destruct (decide (k ∈ schema)) as [|Hn]; [done|].
  pose proof (assign_other_key fields ∅ kw k Hn) as Ho.
  rewrite Has in Ho. unfold state_of in Ho. cbn in Ho. rewrite Hv in Ho.
  apply dict_lookup_items in Ho. done.
Qed.

(** A theme the constructor returns has the attributes of the schema
    and no other; each holds the value of its keyword when the keyword was
    given and its default otherwise; and no keyword outside of the schema
    was given. *)
Theorem constructor_assigns (kw : kwargs) (t : Theme) :
  __init__ kw = Ok t ->
  (forall f, f ∈ fields ->
             t !! attribute f = Some (from_option id (default f) (kw !! key f))) /\
  (forall a, a ∉ map attribute fields -> t !! a = None) /\
  (forall k, is_Some (kw !! k) -> k ∈ schema).
Proof. apply init_values. Qed.

Lemma assign_app (a b : list field) (self : Theme) (kw : kwargs) :
  assign (a ++ b) self kw = (self' ← assign a self; assign b self') kw.
Proof.
  revert self kw. induction a as [|f a IH]; intros self kw.
  - cbn [app assign]. rewrite bind_run. cbn.
    by destruct (assign b self kw) as [[kw' w] r].
  - cbn [app assign]. rewrite !bind_run.
    destruct (_get _ _ _ kw) as [[kw1 w1] [v|e]]; [|done].
    rewrite IH, !bind_run.
    destruct (assign a _ kw1) as [[kw2 w2] [self2|e]]; [|done].
    destruct (assign b self2 kw2) as [[kw3 w3] r]. by rewrite app_assoc.
Qed.

Lemma get_string_type (key0 s : string) (default0 : pyval) (kw : kwargs)
    (v : pyval) :
  kw !! key0 = Some v ->
  _get key0 [VString s] default0 kw = (delete key0 kw, [], Raise TypeError).
Proof. intros Hv. unfold _get. rewrite bind_run. cbn [get]. by rewrite Hv. Qed.

(** The keyword [scrollarea_position] can never be given: its allowed
    type is written as the string ['str'], which [isinstance] refuses with
    a [TypeError] whatever the value.  (When an earlier keyword fails its
    own check, that error comes first.) *)
Theorem scrollarea_position_refused (kw : kwargs) (v : pyval) :
  kw !! "scrollarea_position" = Some v ->
  match value_of (assign (take 22 fields) ∅ kw) with
  | Ok _ => __init__ kw = Raise TypeError
  | Raise e => __init__ kw = Raise e
  end.
Proof.
  intros Hv. unfold __init__.
  assert (assign fields ∅ kw
          = (self' ← assign (take 22 fields) ∅; assign (drop 22 fields) self') kw)
    as -> by (by rewrite <- assign_app, take_drop).
  rewrite bind_run.
  assert ("scrollarea_position" ∉ map key (take 22 fields)) as Hn
    by (apply (bool_decide_eq_false_1 _); vm_compute; reflexivity).
  pose proof (assign_other_key (take 22 fields) ∅ kw _ Hn) as Ho.
  destruct (assign (take 22 fields) ∅ kw) as [[kw1 w1] [self1|e]]; [|done].
  unfold state_of in Ho. cbn [fst value_of snd] in Ho |- *. rewrite Hv in Ho.
  change (drop 22 fields)
    with (Field "scrollarea_position" "scrollarea_position" [VString "str"]
            (PStr POSITION_SOUTHEAST) :: drop 23 fields).
  cbn [assign attribute key allowed_types default].
  by rewrite bind_run, (get_string_type _ _ _ _ v Ho).
Qed.

(** The attribute [widget_background_inflate] is read from the keyword
    [background_inflate]: the keyword named after the attribute is refused
    as unknown, whatever its value. *)
Theorem background_inflate_keyword (v : pyval) :
  __init__ (Dict [("widget_background_inflate", v)])
  = Raise (ValueError UnknownParameter) /\
  (forall kw t,
     __init__ kw = Ok t ->
     t !! "widget_background_inflate"
     = Some (from_option id (pair_of 0 0) (kw !! "background_inflate"))).
Proof.
  split; [vm_compute; reflexivity|]. intros kw t Ht.
  apply (proj1 (init_values kw t Ht)
           (Field "widget_background_inflate" "background_inflate" [VTuple2]
              (pair_of 0 0))).
  unfold fields. repeat first [apply list_elem_of_here | apply list_elem_of_further].
Qed.

(** The constructor takes [widget_padding] as an int or a float only: a
    tuple or a list of paddings, which [validate] accepts on the attribute,
    fails the assertion of the keyword. *)
Theorem padding_vector_refused (l : list pyval) :
  __init__ (Dict [("widget_padding", PTuple l)]) = Raise AssertionError /\
  __init__ (Dict [("widget_padding", PList l)]) = Raise AssertionError.
Proof. split; vm_compute; reflexivity. Qed.

(** *** What [validate] writes *)

(** Proves that [validate] leaves alone an attribute [n] known by [Hn]
    not to be one of those it assigns. *)
Ltac frame Hn :=
  repeat first
    [ apply preserves_bind; [|intros]
    | apply preserves_ret | apply preserves_get | apply preserves_lift
    | apply preserves_raise
    | apply preserves_setattr; intros ->; apply Hn;
      apply (bool_decide_unpack _); vm_compute; reflexivity
    | progress unfold attr, check, assert_isinstance, assert_position_of,
        assert_alignment_of, format_color, to_tuple, assert_both_ge0,
        assert_gt0, assert_ge0, validate, validate_settings,
        validate_color_asserts
    | progress cbn [for_each colors]
    | match goal with
      | |- preserves _ (match ?x with _ => _ end) => destruct x
      end ].

(** [validate] assigns the seventeen colours, the five vectors, the
    padding and the selection effect, and no other attribute, however it
    ends: the booleans, the fonts, the sizes, the style, the positions and
    the offsets of the shadows are only read. *)
Theorem validate_frame (t : Theme) (n : string) :
  n ∉ colors ++ ["scrollarea_outer_margin"; "title_offset";
                 "widget_background_inflate"; "widget_margin";
                 "widget_padding"; "widget_offset"; "widget_selection_effect"] ->
  state_of (validate t) !! n = t !! n.
Proof.
  intros Hn.
  assert (preserves (fun s : Theme => s !! n) validate) as Hp by frame Hn.
  apply Hp.
Qed.

Lemma format_color_run (name : string) (s s' : Theme) w :
  format_color name s = (s', w, Ok tt) ->
  exists c c', s !! name = Some c /\ _format_opacity c = Ok c' /\
               s' = <[name := c']> s.
Proof.
  unfold format_color, attr. rewrite !bind_run. cbn [get].
  destruct (s !! name) as [c|] eqn:Hc; [|discriminate]. cbn.
  destruct (_format_opacity c) as [c'|] eqn:Hf; [|discriminate]. cbn.
  intros Heq. exists c, c'. split; [done|]. split; [done|].
  unfold setattr, modify in Heq. by injection Heq.
Qed.

Lemma for_each_format (names : list string) (s s' : Theme) w (n : string) :
  NoDup names ->
  for_each format_color names s = (s', w, Ok tt) ->
  (n ∈ names -> exists c c', s !! n = Some c /\ _format_opacity c = Ok c' /\
                             s' !! n = Some c') /\
  (n ∉ names -> s' !! n = s !! n).
Proof.
  revert s w. induction names as [|m names IH]; intros s w Hd Hf.
  - injection Hf as <- _. split; [|done]. intros Hn. by apply elem_of_nil in Hn.
  - apply NoDup_cons in Hd as [Hm Hd]. cbn [for_each] in Hf.
    apply bind_ok in Hf as (s1 & w1 & [] & w2 & Hfm & Hf & _).
    destruct (format_color_run m s s1 w1 Hfm) as (c & c' & Hc & Hfmt & ->).
    destruct (IH _ _ Hd Hf) as [IH1 IH2]. split.
    + intros Hn. apply elem_of_cons in Hn as [-> | Hn].
      * exists c, c'. split; [done|]. split; [done|].
        rewrite (IH2 Hm). apply dict_lookup_insert_eq.
      * destruct (IH1 Hn) as (d & d' & Hd1 & Hd2 & Hd3).
        exists d, d'. split; [|done].
        rewrite <- Hd1. symmetry. apply dict_lookup_insert_ne.
        intros ->. done.
    + intros Hn. apply not_elem_of_cons in Hn as [Hne Hn].
      rewrite (IH2 Hn). by apply dict_lookup_insert_ne.
Qed.

(** A [validate] that returns has formatted every colour of the theme,
    once: each of the seventeen colour attributes holds what
    [_format_opacity] makes of its former value (an image, [None] or the
    four channels as a tuple). *)
Theorem validate_formats_colors (t t' : Theme) (w : list no_effect)
    (n : string) (c : pyval) :
  validate t = (t', w, Ok tt) -> n ∈ colors -> t !! n = Some c ->
  exists c', _format_opacity c = Ok c' /\ t' !! n = Some c'.
Proof.
  intros Hv Hn Hc. unfold validate in Hv.
  apply bind_ok in Hv as (t1 & w1 & [] & w2 & Hv & Hca & _).
  assert (t' !! n = t1 !! n) as ->.
  { eapply (preserves_run (fun s : Theme => s !! n)); [|exact Hca].
    unfold validate_color_asserts. preserve. }
  clear Hca. unfold validate_settings in Hv.
  set (f := fun s : Theme => s !! n) in *.
  change (f t = Some c) in Hc. change (exists c', _format_opacity c = Ok c' /\ f t1 = Some c').
  peel f Hv Hc.
  apply bind_ok in Hv as (sa & wa & [] & wb & Hfe & Hrest & _).
  assert (NoDup colors) as Hd by (apply (bool_decide_unpack _); vm_compute; reflexivity).
  destruct (proj1 (for_each_format colors _ sa wa n Hd Hfe) Hn)
    as (c0 & c' & Hc0 & Hfmt & Hc').
  unfold f in Hc. rewrite Hc in Hc0. injection Hc0 as <-.
  exists c'. split; [done|].
  assert (f t1 = f sa) as ->; [|done].
  eapply preserves_run; [|exact Hrest].
  assert (n ∉ ["scrollarea_outer_margin"; "title_offset";
               "widget_background_inflate"; "widget_margin";
               "widget_padding"; "widget_offset"; "widget_selection_effect"])
    as Hout.
  { intros Hin. unfold colors in Hn.
    rewrite !elem_of_cons, elem_of_nil in Hn.
    rewrite !elem_of_cons, elem_of_nil in Hin.
    repeat (destruct Hin as [-> | Hin];
            [repeat (destruct Hn as [Hn | Hn]; [discriminate Hn|]); exact Hn|]).
    exact Hin. }
  unfold f. frame Hout.
Qed.

End More.

Lemma vec_to_tuple_spec_witness :
  _vec_to_tuple (PTuple [PInt 0; PInt 10]) 2 = Ok (PTuple [PInt 0; PInt 10]).
Proof.
  destruct (proj1 (vec_to_tuple_spec (PList [PInt 0; PInt 10]) 2)
              (PTuple [PInt 0; PInt 10]) eq_refl)
    as (l & Hl & _ & _ & Hi).
  exact Hi.
Defined.

Lemma format_opacity_idempotent_witness :
  _format_opacity (rgba 1 2 3 255) = Ok (rgba 1 2 3 255).
Proof.
  exact (proj1 (format_opacity_idempotent (PList [PInt 1; PInt 2; PInt 3])
                  (rgba 1 2 3 255) eq_refl)).
Defined.

Lemma constructor_assigns_witness :
  exists t,
    @__init__ Sample.library (Dict [("title_font_size", PInt 12)]) = Ok t /\
    t !! "title_font_size" = Some (PInt 12) /\
    t !! "widget_font_size" = Some (PInt 30).
Proof.
  destruct (@__init__ Sample.library (Dict [("title_font_size", PInt 12)]))
    as [t|e] eqn:Ht; [|vm_compute in Ht; discriminate Ht].
  exists t. split; [done|].
  destruct (@constructor_assigns Sample.library _ t Ht) as (Hf & _ & _).
  split.
  - apply (Hf (Field "title_font_size" "title_font_size" [VType Tint] (PInt 40))).
    unfold fields.
    repeat first [apply list_elem_of_here | apply list_elem_of_further].
  - apply (Hf (Field "widget_font_size" "widget_font_size" [VType Tint] (PInt 30))).
    unfold fields.
    repeat first [apply list_elem_of_here | apply list_elem_of_further].
Defined.

Lemma scrollarea_position_refused_witness :
  @__init__ Sample.library (Dict [("scrollarea_position", PStr "position-south")])
  = Raise TypeError.
Proof.
  exact (@scrollarea_position_refused Sample.library
           (Dict [("scrollarea_position", PStr "position-south")])
           (PStr "position-south") eq_refl).
Defined.

Lemma background_inflate_keyword_witness :
  exists t,
    @__init__ Sample.library (Dict [("background_inflate", pair_of 2 3)]) = Ok t /\
    t !! "widget_background_inflate" = Some (pair_of 2 3).
Proof.
  destruct (@__init__ Sample.library (Dict [("background_inflate", pair_of 2 3)]))
    as [t|e] eqn:Ht; [|vm_compute in Ht; discriminate Ht].
  exists t. split; [done|].
  exact (proj2 (@background_inflate_keyword Sample.library PNone) _ t Ht).
Defined.

Lemma validate_frame_witness :
  state_of (@validate Sample.library
              (<["title_font_size" := PInt (-3)]> Sample.default_theme))
    !! "title_font_size" = Some (PInt (-3)).
Proof.
  rewrite (@validate_frame Sample.library _ "title_font_size").
  - vm_compute. reflexivity.
  - apply (bool_decide_eq_false_1 _). vm_compute. reflexivity.
Defined.

Lemma validate_formats_colors_witness :
  state_of (@validate Sample.library
              (<["title_font_color" := PList [PInt 1; PInt 2; PInt 3]]>
                 Sample.default_theme))
    !! "title_font_color" = Some (rgba 1 2 3 255).
Proof.
  assert (exists t',
             @validate Sample.library
               (<["title_font_color" := PList [PInt 1; PInt 2; PInt 3]]>
                  Sample.default_theme) = (t', [], Ok tt)) as [t' Ht].
  { eexists. vm_compute. reflexivity. }
  destruct (@validate_formats_colors Sample.library _ t' [] "title_font_color"
              (PList [PInt 1; PInt 2; PInt 3]) Ht)
    as (c' & Hf & Hc').
  - apply (bool_decide_unpack _). vm_compute. reflexivity.
  - vm_compute. reflexivity.
  - rewrite Ht. cbn [state_of fst]. rewrite Hc'. f_equal.
    vm_compute in Hf. by injection Hf as <-.
Defined.

End ThemeFacts.

(** ** widgets/widget/menubar.py *)

Module MenubarFacts.
Import Menubar.
Import ThemeFacts (run_bind, run_lift).

Lemma preserves_modify {S E T} (f : S -> T) (g : S -> S) :
  (forall s, f (g s) = f s) -> preserves f (modify g : M S E unit).
Proof. intros Hg s. apply Hg. Qed.

Lemma preserves_hash_changed {T} (f : MenuBar -> T) (args : render_key) :
  (forall v s, f (set_last_render_hash v s) = f s) ->
  preserves f (_render_hash_changed args).
Proof.
  intros Hf s. unfold _render_hash_changed. rewrite bind_run. cbn [get].
  destruct (bool_decide _); [done|]. apply Hf.
Qed.

(** Proves that a method of the bar leaves an attribute alone. *)
Ltac keep :=
  repeat first
    [ apply preserves_hash_changed; intros; reflexivity
    | apply preserves_bind; [|intros]
    | apply preserves_ret | apply preserves_get | apply preserves_lift
    | apply preserves_raise | apply preserves_emit
    | apply preserves_modify; intros; reflexivity
    | progress unfold _render, render_style, render_backbox, _check_title_color
    | progress lazy zeta
    | match goal with
      | |- preserves _ (match ?x with _ => _ end) => destruct x
      end ].

Section Facts.
Context `{Toolkit}.

(** *** The render and its hash *)

Lemma hash_changed_run (self : MenuBar) (args : render_key) :
  _last_render_hash self <> Some args ->
  _render_hash_changed args self
  = (set_last_render_hash (Some args) self, [], Ok true).
Proof.
  intros Hh. unfold _render_hash_changed. rewrite bind_run. cbn [get].
  by rewrite bool_decide_eq_false_2.
Qed.

Lemma render_without_menu (self : MenuBar) :
  _menu self = None -> _render self = (self, [], Ok None).
Proof.
  intros Hm. unfold _render.
  eapply run_bind; [reflexivity|]; cbv beta. by rewrite Hm.
Qed.

Lemma render_skips (self : MenuBar) (menu : Menu) :
  _menu self = Some menu ->
  _last_render_hash self = Some (render_args self menu) ->
  _render self = (self, [], Ok (Some true)).
Proof.
  intros Hm Hh. unfold _render.
  eapply run_bind; [reflexivity|]; cbv beta. rewrite Hm.
  unfold _render_hash_changed. rewrite !bind_run. cbn [get].
  by rewrite bool_decide_eq_true_2.
Qed.

Lemma render_unfold (self : MenuBar) (menu : Menu) :
  _menu self = Some menu ->
  _last_render_hash self <> Some (render_args self menu) ->
  _render self =
  ('(dy, cross_size) ← render_style;
   modify (fun self =>
             set_rect {| x := x (_rect self); y := y (_rect self);
                         width := width (_rect self);
                         height := height (_rect self) + dy |} self);;
   render_backbox cross_size;;
   mret None) (prepared self menu).
Proof.
  intros Hm Hh. unfold _render.
  eapply run_bind; [reflexivity|]; cbv beta. rewrite Hm.
  eapply run_bind; [by apply hash_changed_run|]. cbn [negb].
  do 5 (eapply run_bind; [reflexivity|]; cbv beta).
  reflexivity.
Qed.

(** What [_render] never writes. *)
Definition settings (self : MenuBar) :=
  (_menu self, x (_rect self), y (_rect self), _title self,
   _font_color self, _font_selected_color self, _visible self, _floating self,
   _mouse_enabled self, _backbox self, _background_color self,
   _modify_scrollarea self, _offsetx self, _offsety self, _style self,
   _width self).

Lemma render_keeps_settings : preserves settings _render.
Proof. keep. Qed.

Lemma check_title_color_state (background_menu : bool) (self : MenuBar) :
  exists w, _check_title_color background_menu self = (self, w, Ok tt).
Proof.
  unfold _check_title_color. rewrite bind_run. cbn [get].
  destruct (match background_menu, _menu self with
            | true, Some menu => theme_background_color menu
            | _, _ => Plain (_background_color self)
            end) as [c|]; [|by eexists].
  destruct (_ && _); by eexists.
Qed.

(** *** The polygon of the style *)

Lemma render_style_shape (self : MenuBar) :
  render_style self =
  match style_shape self with
  | Some (polygon, background_menu, dy, cross_size) =>
      (modify (set_polygon_pos (Some polygon));;
       _check_title_color background_menu;;
       mret (dy, cross_size)) self
  | None => (self, [], Raise (ValueError InvalidMenubarMode))
  end.
Proof.
  unfold render_style, style_shape.
  eapply run_bind; [reflexivity|]; cbv beta zeta.
  repeat (destruct (_ =? _); [reflexivity|]). reflexivity.
Qed.

Lemma render_style_run (self : MenuBar) polygon background_menu dy cross_size :
  style_shape self = Some (polygon, background_menu, dy, cross_size) ->
  exists w,
    render_style self
    = (set_polygon_pos (Some polygon) self, w, Ok (dy, cross_size)).
Proof.
  intros Hs. rewrite render_style_shape, Hs.
  destruct (check_title_color_state background_menu
              (set_polygon_pos (Some polygon) self)) as [w Hw].
  exists w. eapply run_bind; [reflexivity|]; cbv beta.
  rewrite bind_run, Hw. cbn. by rewrite app_nil_r.
Qed.

Lemma style_shape_valid (self : MenuBar) :
  _style self ∈ menubar_styles -> is_Some (style_shape self).
Proof.
  unfold menubar_styles, style_shape. rewrite !elem_of_cons, elem_of_nil.
  intros Hs. cbv zeta.
  repeat (destruct Hs as [Hs | Hs]; [rewrite Hs; by eexists|]). done.
Qed.

(** *** What a render that finds the hash changed comes to *)

(** The bar after the branch on the style and the update of the height of
    its rect. *)
Lemma render_recomputes (self : MenuBar) (menu : Menu) polygon background_menu
    dy cross_size :
  _menu self = Some menu ->
  _last_render_hash self <> Some (render_args self menu) ->
  style_shape (prepared self menu)
  = Some (polygon, background_menu, dy, cross_size) ->
  let drawn := set_polygon_pos (Some polygon) (prepared self menu) in
  let sized :=
    set_rect {| x := x (_rect drawn); y := y (_rect drawn);
                width := width (_rect drawn);
                height := height (_rect drawn) + dy |} drawn in
  exists w,
    _render self =
    if _backbox self then
      match backbox_rect sized cross_size with
      | Ok rect =>
          (set_backbox_pos
             (Some (if menu_prev_condition menu then cross rect else arrow rect))
             (set_backbox_rect (Some rect) sized), w, Ok None)
      | Raise e => (sized, w, Raise e)
      end
    else (sized, w, Ok None).
Proof.
  intros Hm Hh Hs drawn sized. rewrite (render_unfold self menu Hm Hh).
  destruct (render_style_run _ _ _ _ _ Hs) as [w Hw].
  exists w. rewrite bind_run, Hw. fold drawn.
  rewrite bind_run. cbn [modify]. fold sized.
  rewrite bind_run. unfold render_backbox. rewrite bind_run. cbn [get].
  change (_backbox sized) with (_backbox self).
  destruct (_backbox self); [|cbn; by rewrite app_nil_r].
  rewrite bind_run. unfold lift at 1.
  destruct (backbox_rect sized cross_size) as [rect|e]; [|cbn; by rewrite app_nil_r].
  rewrite bind_run. cbn [modify].
  change (_box_mode sized)
    with (if menu_prev_condition menu then _MODE_CLOSE else _MODE_BACK).
  destruct (menu_prev_condition menu); cbn; by rewrite app_nil_r.
Qed.

Lemma render_polygon (self : MenuBar) (menu : Menu) polygon background_menu
    dy cross_size :
  _menu self = Some menu ->
  _last_render_hash self <> Some (render_args self menu) ->
  style_shape (prepared self menu)
  = Some (polygon, background_menu, dy, cross_size) ->
  _polygon_pos (state_of (_render self)) = Some polygon.
Proof.
  intros Hm Hh Hs.
  destruct (render_recomputes self menu _ _ _ _ Hm Hh Hs) as [w ->].
  destruct (_backbox self); [|done]. by destruct (backbox_rect _ _).
Qed.

Lemma prepared_style (self : MenuBar) (menu : Menu) :
  _style (prepared self menu) = _style self.
Proof. reflexivity. Qed.

Lemma style_shape_points (self : MenuBar) polygon background_menu dy cross_size :
  style_shape self = Some (polygon, background_menu, dy, cross_size) ->
  length polygon =
  if _style self =? MENUBAR_STYLE_ADAPTIVE then 6%nat
  else if _style self =? MENUBAR_STYLE_NONE then 2%nat else 4%nat.
Proof.
  unfold style_shape, MENUBAR_STYLE_ADAPTIVE, MENUBAR_STYLE_SIMPLE,
    MENUBAR_STYLE_TITLE_ONLY, MENUBAR_STYLE_TITLE_ONLY_DIAGONAL,
    MENUBAR_STYLE_NONE, MENUBAR_STYLE_UNDERLINE, MENUBAR_STYLE_UNDERLINE_TITLE.
  cbv zeta.
  repeat match goal with
         | |- context [_style self =? ?c] =>
             destruct (Z.eqb_spec (_style self) c) as [Hs|Hs];
             [rewrite ?Hs; simpl; by intros [= <- _ _ _]|clear Hs]
         end.
  done.
Qed.

(** C1. After a render that recomputes (the bar has a menu and the hash
    has changed) the polygon has 6 points for ADAPTIVE, 4 for SIMPLE,
    TITLE_ONLY, TITLE_ONLY_DIAGONAL, UNDERLINE and UNDERLINE_TITLE, and 2
    for NONE. *)
Theorem render_point_count (self : MenuBar) (menu : Menu) :
  _menu self = Some menu ->
  _last_render_hash self <> Some (render_args self menu) ->
  let points := length <$> _polygon_pos (state_of (_render self)) in
  (_style self = MENUBAR_STYLE_ADAPTIVE -> points = Some 6%nat) /\
  (_style self = MENUBAR_STYLE_SIMPLE -> points = Some 4%nat) /\
  (_style self = MENUBAR_STYLE_TITLE_ONLY -> points = Some 4%nat) /\
  (_style self = MENUBAR_STYLE_TITLE_ONLY_DIAGONAL -> points = Some 4%nat) /\
  (_style self = MENUBAR_STYLE_NONE -> points = Some 2%nat) /\
  (_style self = MENUBAR_STYLE_UNDERLINE -> points = Some 4%nat) /\
  (_style self = MENUBAR_STYLE_UNDERLINE_TITLE -> points = Some 4%nat).
Proof.
  intros Hm Hh points. subst points.
  assert (Hp : _style self ∈ menubar_styles ->
               length <$> _polygon_pos (state_of (_render self))
               = Some (if _style self =? MENUBAR_STYLE_ADAPTIVE then 6%nat
                       else if _style self =? MENUBAR_STYLE_NONE then 2%nat
                       else 4%nat)).
  { intros Hv.
    destruct (style_shape_valid (prepared self menu)) as [[[[p b] dy] cs] Hs];
      [by rewrite prepared_style|].
    rewrite (render_polygon self menu p b dy cs Hm Hh Hs).
    cbn [fmap option_fmap option_map].
    by rewrite (style_shape_points _ _ _ _ _ Hs), prepared_style. }
  repeat split; intros Hs; rewrite Hp; rewrite Hs; try reflexivity;
    unfold menubar_styles;
    repeat first [apply list_elem_of_here | apply list_elem_of_further].
Qed.

(** *** The memo of the render *)

(** A style outside of the seven is refused once the hash has been
    stored and the title rendered. *)
Lemma render_invalid_style (self : MenuBar) (menu : Menu) :
  _menu self = Some menu ->
  _last_render_hash self <> Some (render_args self menu) ->
  style_shape (prepared self menu) = None ->
  _render self = (prepared self menu, [], Raise (ValueError InvalidMenubarMode)).
Proof.
  intros Hm Hh Hs. rewrite (render_unfold self menu Hm Hh).
  by rewrite bind_run, render_style_shape, Hs.
Qed.

Lemma render_stores_hash (self : MenuBar) (menu : Menu) :
  _menu self = Some menu ->
  _last_render_hash (state_of (_render self)) = Some (render_args self menu).
Proof.
  intros Hm.
  destruct (decide (_last_render_hash self = Some (render_args self menu)))
    as [Hh|Hh].
  - by rewrite (render_skips self menu Hm Hh).
  - rewrite (render_unfold self menu Hm Hh).
    match goal with
    | |- _last_render_hash (state_of (?m ?s)) = _ =>
        assert (preserves _last_render_hash m) as Hp by keep;
        rewrite (Hp s)
    end.
    reflexivity.
Qed.

Lemma render_twice (self : MenuBar) (menu : Menu) :
  _menu self = Some menu ->
  _render (state_of (_render self)) = (state_of (_render self), [], Ok (Some true)).
Proof.
  intros Hm.
  pose proof (render_keeps_settings self) as Hk.
  pose proof (render_stores_hash self menu Hm) as Hh.
  unfold settings in Hk.
  injection Hk as Hmenu Hx Hy Ht _ Hc Hv _ _ _ _ _ _ _ _ _.
  apply (render_skips _ menu); [congruence|].
  rewrite Hh. unfold render_args. congruence.
Qed.


(** *** The glyph of the back-box *)

(** C7. When a bar with the back-box enabled has been rendered anew, the
    back-box has a rect and a glyph made of offsets from the corners and
    the centre of that rect: in CLOSE mode (the menu is the root) the 9
    points of a cross, 4 px inside the corners; in BACK mode the 8 points
    of an arrow, 5 px inside the sides and 2 px around the centre line. *)
Theorem render_backbox_glyph (self : MenuBar) (menu : Menu) (v : option bool) :
  _menu self = Some menu ->
  _backbox self = true ->
  _last_render_hash self <> Some (render_args self menu) ->
  value_of (_render self) = Ok v ->
  exists (r : Rect) (glyph : list pixel),
    _backbox_rect (state_of (_render self)) = Some r /\
    _backbox_pos (state_of (_render self)) = Some glyph /\
    if menu_prev_condition menu then
      _box_mode (state_of (_render self)) = _MODE_CLOSE /\
      length glyph = 9%nat /\
      glyph = [ (left r + 4, top r + 4);
                (centerx r, centery r);
                (right r - 4, top r + 4);
                (centerx r, centery r);
                (right r - 4, bottom r - 4);
                (centerx r, centery r);
                (left r + 4, bottom r - 4);
                (centerx r, centery r);
                (left r + 4, top r + 4) ]
    else
      _box_mode (state_of (_render self)) = _MODE_BACK /\
      length glyph = 8%nat /\
      glyph = [ (left r + 5, centery r);
                (centerx r, top r + 5);
                (centerx r, centery r - 2);
                (right r - 5, centery r - 2);
                (right r - 5, centery r + 2);
                (centerx r, centery r + 2);
                (centerx r, bottom r - 5);
                (left r + 5, centery r) ].
Proof.
  intros Hm Hb Hh Hv.
  destruct (style_shape (prepared self menu)) as [[[[p b] dy] cs]|] eqn:Hs;
    [|by rewrite (render_invalid_style self menu Hm Hh Hs) in Hv].
  destruct (render_recomputes self menu p b dy cs Hm Hh Hs) as [w Hr].
  rewrite Hb in Hr. rewrite Hr in Hv |- *. clear Hr.
  destruct (backbox_rect _ cs) as [r|e]; [|discriminate Hv].
  exists r, (if menu_prev_condition menu then cross r else arrow r).
  split; [done|]. split; [done|].
  unfold prepared. destruct (menu_prev_condition menu); repeat split; reflexivity.
Qed.

(** *** The change of the scrollbar *)

Lemma bind_run_ok {S E A B} (m : M S E A) (k : A -> M S E B) s s1 w1 a s2 w2 r :
  m s = (s1, w1, Ok a) -> k a s1 = (s2, w2, r) -> (m ≫= k) s = (s2, w1 ++ w2, r).
Proof. intros Hm Hk. by rewrite bind_run, Hm, Hk. Qed.

Lemma polygon_pos_at_run (i : nat) (self : MenuBar) :
  polygon_pos_at i self =
  (self, [],
   match _polygon_pos self with
   | Some polygon_pos =>
       match polygon_pos !! i with
       | Some p => Ok p
       | None => Raise IndexError
       end
   | None => Raise TypeError
   end).
Proof.
  unfold polygon_pos_at. eapply run_bind; [reflexivity|]; cbv beta.
  destruct (_polygon_pos self) as [polygon_pos|]; [|reflexivity].
  by destruct (polygon_pos !! i).
Qed.

Lemma scrollbar_style_change_run (self : MenuBar) (position : string) s1 w1 v :
  _render self = (s1, w1, Ok v) ->
  get_scrollbar_style_change position self =
  (s1, w1,
   if _modify_scrollarea self && (_style self =? MENUBAR_STYLE_ADAPTIVE)
      && String.eqb position POSITION_EAST
   then
     match _polygon_pos s1 with
     | Some polygon =>
         match polygon !! 4%nat, polygon !! 2%nat with
         | Some p4, Some p2 =>
             Ok ((p4.2 - p2.2)%num, (NInt 0, (- (p4.2 - p2.2))%num))
         | _, _ => Raise IndexError
         end
     | None => Raise TypeError
     end
   else Ok (NInt 0, (NInt 0, NInt 0))).
Proof.
  intros Hr. pose proof (render_keeps_settings self) as Hk.
  rewrite Hr in Hk. unfold settings, state_of in Hk. simpl in Hk.
  injection Hk as _ _ _ _ _ _ _ _ _ _ _ Hmod _ _ Hst _.
  unfold get_scrollbar_style_change. rewrite <- (app_nil_r w1).
  eapply bind_run_ok; [exact Hr|].
  eapply run_bind; [reflexivity|]; cbv beta. rewrite Hmod, Hst.
  destruct (_modify_scrollarea self); [|reflexivity]. cbn [negb andb].
  destruct (_style self =? MENUBAR_STYLE_ADAPTIVE); [|reflexivity].
  cbn [andb]. destruct (String.eqb position POSITION_EAST); [|reflexivity].
  rewrite bind_run, polygon_pos_at_run.
  destruct (_polygon_pos s1) as [polygon|] eqn:Hp; [|reflexivity].
  destruct (polygon !! 4%nat) as [p4|]; [|by destruct (polygon !! 2%nat)].
  rewrite bind_run, polygon_pos_at_run, Hp.
  by destruct (polygon !! 2%nat).
Qed.

Lemma state_of_bind {S E A B} (m : M S E A) (k : A -> M S E B) s s1 w a :
  m s = (s1, w, Ok a) -> state_of ((m ≫= k) s) = state_of (k a s1).
Proof. intros Hm. rewrite bind_run, Hm. by destruct (k a s1) as [[s2 w2] r]. Qed.

(** C5, as amended.  [get_scrollbar_style_change] renders the bar first
    (the state and the effects are those of [_render]).  It returns
    [(0, (0, 0))] whenever [_modify_scrollarea] is false, the style is not
    ADAPTIVE or the position is not the east one.  With the flag set, the
    ADAPTIVE style and the east position it reads the vertices 4 and 2 of
    the polygon of the bar: it returns [(t, (0, -t))] for [t] the
    difference of their ordinates when the polygon has them, raises
    [IndexError] when the polygon lacks one, and raises [TypeError] when
    the bar has no polygon, as a bar without a menu that was never
    rendered.  After a render that recomputes, [t] is the drop from 0.6 of
    the height of the title to its full height. *)
Theorem scrollbar_style_change (self : MenuBar) (position : string)
    (s1 : MenuBar) (w1 : list effect) (v : option bool) :
  _render self = (s1, w1, Ok v) ->
  state_of (get_scrollbar_style_change position self) = s1 /\
  effects_of (get_scrollbar_style_change position self) = w1 /\
  (_modify_scrollarea self = false \/ _style self <> MENUBAR_STYLE_ADAPTIVE \/
   position <> POSITION_EAST ->
   value_of (get_scrollbar_style_change position self)
   = Ok (NInt 0, (NInt 0, NInt 0))) /\
  (_modify_scrollarea self = true -> _style self = MENUBAR_STYLE_ADAPTIVE ->
   position = POSITION_EAST ->
   (forall polygon p4 p2,
      _polygon_pos s1 = Some polygon ->
      polygon !! 4%nat = Some p4 -> polygon !! 2%nat = Some p2 ->
      value_of (get_scrollbar_style_change position self)
      = Ok ((p4.2 - p2.2)%num, (NInt 0, (- (p4.2 - p2.2))%num))) /\
   (forall polygon,
      _polygon_pos s1 = Some polygon ->
      polygon !! 4%nat = None \/ polygon !! 2%nat = None ->
      value_of (get_scrollbar_style_change position self) = Raise IndexError) /\
   (_polygon_pos s1 = None ->
    value_of (get_scrollbar_style_change position self) = Raise TypeError) /\
   (_menu self = None ->
    s1 = self /\
    (_polygon_pos self = None ->
     value_of (get_scrollbar_style_change position self) = Raise TypeError)) /\
   (forall menu,
      _menu self = Some menu ->
      _last_render_hash self <> Some (render_args self menu) ->
      let r := _rect (prepared self menu) in
      let t := ((y r + height r) - (y r + height r * NFloat 0.6))%num in
      value_of (get_scrollbar_style_change position self)
      = Ok (t, (NInt 0, (- t)%num)))).
Proof.
  intros Hr. rewrite (scrollbar_style_change_run self position s1 w1 v Hr).
  split; [done|]. split; [done|]. split.
  - intros [-> | [Hs | Hp]]; [done| |].
    + apply Z.eqb_neq in Hs. rewrite Hs. by rewrite andb_false_r.
    + apply String.eqb_neq in Hp. rewrite Hp. by rewrite andb_false_r.
  - intros -> Hs ->. rewrite Hs, String.eqb_refl. cbn [andb Z.eqb value_of snd].
    change (MENUBAR_STYLE_ADAPTIVE =? MENUBAR_STYLE_ADAPTIVE) with true.
    cbv iota. split; [|split; [|split; [|split]]].
    + intros polygon p4 p2 -> H4 H3. cbn beta iota. by rewrite H4, H3.
    + intros polygon Hp Hn. rewrite Hp. cbn [andb]. cbv iota.
      match goal with
      | |- match ?a with Some _ => match ?b with _ => _ end | None => _ end = _ =>
          assert (a = None \/ b = None) as [-> | ->] by exact Hn;
          [reflexivity|by destruct a]
      end.
    + by intros ->.
    + intros Hm. rewrite (render_without_menu self Hm) in Hr.
      injection Hr as <- _ _. split; [done|]. by intros ->.
    + intros menu Hm Hh.
      assert (style_shape (prepared self menu)
              = Some (adaptive (_rect (prepared self menu)) (_width self)
                        (_offsetx self), false, 0,
                      (height (_rect (prepared self menu)) * NFloat 0.6)%num))
        as Hshape.
      { unfold style_shape. rewrite prepared_style, Hs. reflexivity. }
      pose proof (render_polygon self menu _ _ _ _ Hm Hh Hshape) as Hp.
      rewrite Hr in Hp. unfold state_of in Hp. simpl in Hp. by rewrite Hp.
Qed.

(** C10. A bar constructed with [modify_scrollarea=False] has the flag
    unset, and with the flag unset [get_scrollbar_style_change] returns
    [(0, (0, 0))] for every position and every style whenever its render
    returns (and raises what the render raises otherwise). *)
Theorem scrollbar_style_change_unmodified :
  (forall (widget : MenuBar) title width background_color back_box mode
          modify_scrollarea offsetx offsety (s0 : MenuBar),
     value_of (__init__ widget title width background_color back_box mode
                 modify_scrollarea offsetx offsety s0) = Ok tt ->
     _modify_scrollarea
       (state_of (__init__ widget title width background_color back_box mode
                    modify_scrollarea offsetx offsety s0))
     = modify_scrollarea) /\
  (forall (self : MenuBar) (position : string),
     _modify_scrollarea self = false ->
     match value_of (_render self) with
     | Ok _ =>
         value_of (get_scrollbar_style_change position self)
         = Ok (NInt 0, (NInt 0, NInt 0))
     | Raise e =>
         value_of (get_scrollbar_style_change position self) = Raise e
     end).
Proof.
  split.
  - intros widget title width background_color back_box mode modify_scrollarea
      offsetx offsety s0 Hv.
    unfold __init__ in *. rewrite bind_run in Hv. unfold lift at 1 in Hv.
    destruct (num_int width) as [w|e] eqn:Hw; [|discriminate Hv]. clear Hv.
    rewrite (state_of_bind _ _ s0 s0 [] w) by reflexivity.
    erewrite state_of_bind by reflexivity.
    match goal with
    | |- _modify_scrollarea (state_of (?m ?s)) = _ =>
        assert (preserves _modify_scrollarea m) as Hp
          by (unfold set_title; keep);
        rewrite (Hp s)
    end.
    reflexivity.
  - intros self position Hmod.
    destruct (_render self) as [[s1 w1] [v|e]] eqn:Hr; cbn [value_of snd].
    + by rewrite (scrollbar_style_change_run self position s1 w1 v Hr), Hmod.
    + unfold get_scrollbar_style_change. by rewrite bind_run, Hr.
Qed.

(** *** When the back-box shows *)

Lemma draw_run (self : MenuBar) polygon rect glyph surface :
  _polygon_pos self = Some polygon -> _backbox_rect self = Some rect ->
  _backbox_pos self = Some glyph -> _surface self = Some surface ->
  _draw self =
  (self,
   (if (2 <? length polygon)%nat
    then [FilledPolygon polygon (_background_color self)] else []) ++
   (if _backbox_visible self
    then [DrawRect (_font_selected_color self) rect (_backbox_border_width self);
          DrawPolygon (_font_selected_color self) glyph]
    else []) ++
   [Blit surface ((x (_rect self) + _offsetx self)%num,
                  (y (_rect self) + _offsety self)%num)],
   Ok tt).
Proof.
  intros Hp Hr Hg Hs. unfold _draw.
  eapply run_bind; [reflexivity|]; cbv beta. rewrite Hp, Hr, Hg, Hs.
  destruct (2 <? length polygon)%nat, (_backbox_visible self); reflexivity.
Qed.

Lemma update_event_run (event : event) (updated : bool) (self : MenuBar) :
  update_event event updated self =
  (self,
   (if _backbox_visible self then [CheckMouseover event] else []) ++
   (if applies self event then [sound event; Apply] else []),
   Ok (updated || applies self event)).
Proof.
  unfold update_event. eapply run_bind; [reflexivity|]; cbv beta.
  eapply bind_run_ok; [by destruct (_backbox_visible self)|].
  destruct event as [button [px py]|button|[px py]|]; cbn [applies sound].
  - destruct (_mouse_enabled self && _); [|by rewrite orb_false_r].
    cbn [andb]. destruct (_backbox_rect self) as [rect|]; [|by rewrite orb_false_r].
    destruct (Rect_bool rect && _); [by rewrite orb_true_r|by rewrite orb_false_r].
  - destruct (_joystick_enabled self); [|by rewrite orb_false_r]. cbn [andb].
    destruct (button =? JOY_BUTTON_BACK);
      [by rewrite orb_true_r|by rewrite orb_false_r].
  - destruct (_touchscreen_enabled self && _); [|by rewrite orb_false_r].
    cbn [andb]. destruct (_backbox_rect self) as [rect|]; [|by rewrite orb_false_r].
    destruct (Rect_bool rect && _); [by rewrite orb_true_r|by rewrite orb_false_r].
  - by rewrite orb_false_r.
Qed.

Lemma update_events_run (events : list event) (updated : bool) (self : MenuBar) :
  update_events events updated self =
  (self,
   flat_map (fun event =>
               (if _backbox_visible self then [CheckMouseover event] else []) ++
               (if applies self event then [sound event; Apply] else []))
     events,
   Ok (updated || existsb (applies self) events)).
Proof.
  revert updated. induction events as [|event events IH]; intros updated.
  - cbn. by rewrite orb_false_r.
  - cbn [update_events flat_map existsb].
    eapply bind_run_ok; [apply update_event_run|].
    rewrite IH. by rewrite orb_assoc.
Qed.

Lemma update_closed_form (events : list event) (self : MenuBar) :
  update events self =
  if readonly self || negb (is_visible self) then (self, [], Ok false)
  else
    (self,
     flat_map (fun event =>
                 (if _backbox_visible self then [CheckMouseover event] else []) ++
                 (if applies self event then [sound event; Apply] else []))
       events ++
     (if existsb (applies self) events then [ApplyUpdateCallbacks] else []),
     Ok (existsb (applies self) events)).
Proof.
  unfold update. eapply run_bind; [reflexivity|]; cbv beta.
  destruct (readonly self || negb (is_visible self)); [reflexivity|].
  eapply bind_run_ok; [apply update_events_run|]. cbn [orb].
  by destruct (existsb (applies self) events).
Qed.

Lemma update_one (event : event) (self : MenuBar) :
  readonly self = false -> is_visible self = true -> applies self event = true ->
  update [event] self
  = (self,
     (if _backbox_visible self then [CheckMouseover event] else []) ++
     [sound event; Apply; ApplyUpdateCallbacks],
     Ok true).
Proof.
  intros Hr Hv Ha. rewrite update_closed_form, Hr, Hv.
  cbn [orb negb flat_map existsb]. rewrite Ha. cbn [orb].
  by rewrite app_nil_r, <- app_assoc.
Qed.

Lemma mouseover_checked (events : list event) (event : event) (self : MenuBar) :
  readonly self = false -> is_visible self = true -> event ∈ events ->
  (CheckMouseover event ∈ effects_of (update events self)
   <-> _backbox_visible self = true).
Proof.
  intros Hr Hv He. rewrite update_closed_form, Hr, Hv.
  cbn [orb negb effects_of fst snd]. rewrite elem_of_app. split.
  - intros [Hin|Hin].
    + apply list_elem_of_In, in_flat_map in Hin as (e & _ & Hin).
      apply list_elem_of_In in Hin.
      destruct (_backbox_visible self); [done|]. exfalso.
      destruct (applies self e); cbn [app] in Hin;
        rewrite ?elem_of_cons, ?elem_of_nil in Hin; destruct e;
        intuition discriminate.
    + destruct (existsb _ _); rewrite ?elem_of_cons, ?elem_of_nil in Hin;
        intuition discriminate.
  - intros Hb. left. apply list_elem_of_In, in_flat_map.
    exists event. split; [by apply list_elem_of_In|].
    rewrite Hb. by left.
Qed.

(** C8, as the code has it.  [_backbox_visible] holds exactly when the
    mouse is enabled, a back-box was asked for, and the bar is not in
    CLOSE mode over a menu without [onclose].  [_draw] draws the rect and
    the glyph of the back-box exactly then, and [update], on a bar that is
    neither read-only nor invisible, checks the mouse-over of each event
    exactly then.  The hit test of [update] does not ask for it: a
    release of the mouse buttons 1 to 3 (with the mouse enabled) or a
    touch (with the touchscreen enabled, over a menu) inside the rect of
    the back-box plays the sound, applies the bar and makes [update]
    return [True] whether the back-box is visible or not.  A read-only or
    invisible bar ignores every event. *)
Theorem backbox_visible_iff (self : MenuBar) :
  (_backbox_visible self = true <->
   _mouse_enabled self = true /\ _backbox self = true /\
   ~ (_box_mode self = _MODE_CLOSE /\
      exists menu, _menu self = Some menu /\ _onclose menu = None)) /\
  (forall polygon rect glyph surface,
     _polygon_pos self = Some polygon -> _backbox_rect self = Some rect ->
     _backbox_pos self = Some glyph -> _surface self = Some surface ->
     value_of (_draw self) = Ok tt /\
     (DrawRect (_font_selected_color self) rect (_backbox_border_width self)
        ∈ effects_of (_draw self) <-> _backbox_visible self = true) /\
     (DrawPolygon (_font_selected_color self) glyph ∈ effects_of (_draw self)
        <-> _backbox_visible self = true)) /\
  (forall (events : list event) (event : event),
     readonly self = false -> is_visible self = true -> event ∈ events ->
     (CheckMouseover event ∈ effects_of (update events self)
      <-> _backbox_visible self = true)) /\
  (forall events : list event,
     readonly self = true \/ is_visible self = false ->
     update events self = (self, [], Ok false)) /\
  (forall rect px py,
     readonly self = false -> is_visible self = true ->
     _backbox_rect self = Some rect ->
     Rect_bool rect = true -> collidepoint rect px py = true ->
     (forall button,
        _mouse_enabled self = true -> button ∈ [1; 2; 3] ->
        update [MOUSEBUTTONUP button (px, py)] self
        = (self,
           (if _backbox_visible self
            then [CheckMouseover (MOUSEBUTTONUP button (px, py))] else []) ++
           [PlayClickMouse; Apply; ApplyUpdateCallbacks],
           Ok true)) /\
     (_touchscreen_enabled self = true -> is_Some (_menu self) ->
      update [FINGERUP (px, py)] self
      = (self,
         (if _backbox_visible self then [CheckMouseover (FINGERUP (px, py))]
          else []) ++
         [PlayClickMouse; Apply; ApplyUpdateCallbacks],
         Ok true))).
Proof.
  split; [|split; [|split; [|split]]].
  - unfold _backbox_visible. split.
    + intros Hv. apply andb_prop in Hv as [Hv Hn].
      apply andb_prop in Hv as [Hm Hb].
      repeat split; try done. intros [Hc (menu & Hmenu & Ho)].
      rewrite Hc, Hmenu, Ho in Hn. by rewrite bool_decide_eq_true_2 in Hn.
    + intros (-> & -> & Hn). cbn [andb].
      apply negb_true_iff, andb_false_iff.
      destruct (Z.eqb_spec (_box_mode self) _MODE_CLOSE) as [Hc|Hc]; [|by left].
      right. destruct (_menu self) as [menu|]; [|done].
      apply bool_decide_eq_false_2. intros Ho. apply Hn. eauto.
  - intros polygon rect glyph surface Hp Hr Hg Hs.
    rewrite (draw_run self polygon rect glyph surface Hp Hr Hg Hs).
    cbn [value_of effects_of fst snd]. split; [done|].
    destruct (2 <? length polygon)%nat, (_backbox_visible self); cbn [app];
      split; rewrite ?elem_of_cons, ?elem_of_nil;
      intuition (try discriminate; auto).
  - intros events event Hr Hv He. by apply mouseover_checked.
  - intros events Hro. rewrite update_closed_form.
    destruct Hro as [-> | ->]; [done|]. by rewrite orb_true_r.
  - intros rect px py Hro Hv Hr Hrb Hc. split.
    + intros button Hm Hb.
      apply (update_one (MOUSEBUTTONUP button (px, py)) self Hro Hv).
      cbn [applies]. by rewrite Hm, Hr, Hrb, Hc, bool_decide_eq_true_2.
    + intros Ht Hm.
      apply (update_one (FINGERUP (px, py)) self Hro Hv).
      cbn [applies]. by rewrite Ht, Hr, Hrb, Hc, bool_decide_eq_true_2.
Qed.

(** *** What the methods of the bar leave alone, and their edge cases *)

(** [_render] writes the hash, the box mode, the surface, the size of
    the rect, the polygon and the back-box, and nothing else: not the
    menu, the position, the title, the colours, the flags, the style, the
    width or the offsets, however it ends. *)
Theorem render_never_writes (self : MenuBar) :
  let after := state_of (_render self) in
  _menu after = _menu self /\
  x (_rect after) = x (_rect self) /\ y (_rect after) = y (_rect self) /\
  _title after = _title self /\
  _font_color after = _font_color self /\
  _font_selected_color after = _font_selected_color self /\
  _visible after = _visible self /\ _floating after = _floating self /\
  _mouse_enabled after = _mouse_enabled self /\
  _joystick_enabled after = _joystick_enabled self /\
  _touchscreen_enabled after = _touchscreen_enabled self /\
  readonly after = readonly self /\ is_selectable after = is_selectable self /\
  _backbox after = _backbox self /\
  _backbox_border_width after = _backbox_border_width self /\
  _background_color after = _background_color self /\
  _modify_scrollarea after = _modify_scrollarea self /\
  _offsetx after = _offsetx self /\ _offsety after = _offsety self /\
  _style after = _style self /\ _width after = _width self.
Proof.
  intros after. subst after.
  pose proof (render_keeps_settings self) as Hk. unfold settings in Hk.
  injection Hk as Hmenu Hx Hy Ht Hfc Hfs Hv Hf Hm Hb Hbg Hmod Hox Hoy Hs Hw.
  assert (preserves _joystick_enabled _render) as Hj by keep.
  assert (preserves _touchscreen_enabled _render) as Hts by keep.
  assert (preserves readonly _render) as Hr by keep.
  assert (preserves is_selectable _render) as Hi by keep.
  assert (preserves _backbox_border_width _render) as Hbw by keep.
  repeat split; try assumption;
    [apply Hj | apply Hts | apply Hr | apply Hi | apply Hbw].
Qed.

Lemma set_title_without_menu (self : MenuBar) (title : string)
    (offsetx offsety : num) :
  _menu self = None ->
  set_title title offsetx offsety self
  = (set_title_offsets title offsetx offsety self, [], Ok tt).
Proof.
  intros Hm. unfold set_title. eapply run_bind; [reflexivity|].
  eapply run_bind; [reflexivity|]; cbv beta.
  change (_menu (set_title_offsets title offsetx offsety self))
    with (_menu self). by rewrite Hm.
Qed.

(** A bar that has no menu is not rendered: [_render] changes nothing
    and returns [None], and [set_title] only stores the title and the
    offsets.  As long as it has no polygon (as [__init__] leaves it),
    drawing it raises [TypeError] before anything is drawn, and so does
    the query of the scrollbar change that reads the polygon. *)
Theorem bar_without_menu (self : MenuBar) (title : string) (offsetx offsety : num)
    (position : string) :
  _menu self = None ->
  _render self = (self, [], Ok None) /\
  set_title title offsetx offsety self
  = (set_title_offsets title offsetx offsety self, [], Ok tt) /\
  (_polygon_pos self = None ->
   _draw self = (self, [], Raise TypeError) /\
   get_scrollbar_style_change position self
   = (self, [],
      if _modify_scrollarea self && (_style self =? MENUBAR_STYLE_ADAPTIVE)
         && String.eqb position POSITION_EAST
      then Raise TypeError else Ok (NInt 0, (NInt 0, NInt 0)))).
Proof.
  intros Hm. pose proof (render_without_menu self Hm) as Hr.
  split; [done|]. split; [by apply set_title_without_menu|].
  intros Hp. split.
  - unfold _draw. eapply run_bind; [reflexivity|]; cbv beta. by rewrite Hp.
  - rewrite (scrollbar_style_change_run self position self [] None Hr).
    by rewrite Hp.
Qed.


Lemma style_shape_invalid (self : MenuBar) :
  _style self ∉ menubar_styles -> style_shape self = None.
Proof.
  intros Hs. unfold style_shape. cbv zeta.
  repeat match goal with
         | |- context [_style self =? ?c] =>
             destruct (Z.eqb_spec (_style self) c) as [He|He];
             [exfalso; apply Hs; rewrite He; unfold menubar_styles;
              repeat first [apply list_elem_of_here | apply list_elem_of_further]
             |clear He]
         end.
  reflexivity.
Qed.

(** A style that is not one of the seven makes the render raise
    [ValueError], but only once: the hash has been stored by then, so the
    next render finds its arguments unchanged and returns [True] over a bar
    that has no polygon for its style. *)
Theorem render_invalid_style_once (self : MenuBar) (menu : Menu) :
  _menu self = Some menu ->
  _last_render_hash self <> Some (render_args self menu) ->
  _style self ∉ menubar_styles ->
  _render self = (prepared self menu, [], Raise (ValueError InvalidMenubarMode)) /\
  _polygon_pos (prepared self menu) = _polygon_pos self /\
  _render (prepared self menu) = (prepared self menu, [], Ok (Some true)).
Proof.
  intros Hm Hh Hs.
  assert (style_shape (prepared self menu) = None) as Hn
    by (by apply style_shape_invalid; rewrite prepared_style).
  pose proof (render_invalid_style self menu Hm Hh Hn) as Hr.
  split; [done|]. split; [done|].
  pose proof (render_twice self menu Hm) as Ht. by rewrite Hr in Ht.
Qed.

(** *** The events *)


Lemma applies_needs_rect (self : MenuBar) (event : event) :
  applies self event = true ->
  (exists button, event = JOYBUTTONDOWN button /\ button = JOY_BUTTON_BACK /\
                  _joystick_enabled self = true) \/
  (exists rect px py,
     _backbox_rect self = Some rect /\ width rect <> 0 /\ height rect <> 0 /\
     x rect <= px < x rect + width rect /\ y rect <= py < y rect + height rect /\
     ((exists button, event = MOUSEBUTTONUP button (px, py) /\
                      1 <= button <= 3 /\ _mouse_enabled self = true) \/
      (event = FINGERUP (px, py) /\ _touchscreen_enabled self = true /\
       is_Some (_menu self)))).
Proof.
  destruct event as [button [px py]|button|[px py]|]; cbn [applies]; intros Ha.
  - right. apply andb_prop in Ha as [Ha Hr]. apply andb_prop in Ha as [Hm Hb].
    destruct (_backbox_rect self) as [rect|]; [|discriminate Hr].
    apply andb_prop in Hr as [Hn Hc]. unfold Rect_bool in Hn.
    apply andb_prop in Hn as [Hw Hh]. unfold collidepoint in Hc.
    apply bool_decide_eq_true_1 in Hb.
    exists rect, px, py. split; [done|].
    apply negb_true_iff, Z.eqb_neq in Hw, Hh.
    repeat (apply andb_prop in Hc as [Hc ?]).
    repeat split; try lia. left. exists button. repeat split; try done.
    + rewrite !elem_of_cons, elem_of_nil in Hb. lia.
    + rewrite !elem_of_cons, elem_of_nil in Hb. lia.
  - left. apply andb_prop in Ha as [Hj Hb]. apply Z.eqb_eq in Hb. eauto.
  - right. apply andb_prop in Ha as [Ha Hr]. apply andb_prop in Ha as [Ht Hm].
    destruct (_backbox_rect self) as [rect|]; [|discriminate Hr].
    apply andb_prop in Hr as [Hn Hc]. unfold Rect_bool in Hn.
    apply andb_prop in Hn as [Hw Hh]. unfold collidepoint in Hc.
    apply bool_decide_eq_true_1 in Hm.
    exists rect, px, py. split; [done|].
    apply negb_true_iff, Z.eqb_neq in Hw, Hh.
    repeat (apply andb_prop in Hc as [Hc ?]).
    repeat split; try lia. by right.
  - discriminate Ha.
Qed.

(** [update] returns [True] for an event only on a bar that is neither
    read-only nor invisible, and only for the back button of an enabled
    joystick, or for a release of the mouse buttons 1 to 3 (the wheel is
    left out) or a touch at a point inside the rect of the back-box, which
    must have been set by a render and have an area. *)
Theorem update_applies_inside_rect (self : MenuBar) (event : event) :
  value_of (update [event] self) = Ok true ->
  readonly self = false /\ is_visible self = true /\
  ((exists button, event = JOYBUTTONDOWN button /\ button = JOY_BUTTON_BACK /\
                   _joystick_enabled self = true) \/
   (exists rect px py,
      _backbox_rect self = Some rect /\ width rect <> 0 /\ height rect <> 0 /\
      x rect <= px < x rect + width rect /\ y rect <= py < y rect + height rect /\
      ((exists button, event = MOUSEBUTTONUP button (px, py) /\
                       1 <= button <= 3 /\ _mouse_enabled self = true) \/
       (event = FINGERUP (px, py) /\ _touchscreen_enabled self = true /\
        is_Some (_menu self))))).
Proof.
  unfold update. rewrite bind_run. cbn [get].
  destruct (readonly self) eqn:Hr; [discriminate|].
  destruct (is_visible self) eqn:Hv; [|discriminate].
  cbn [orb negb]. rewrite bind_run, update_events_run.
  cbn [orb existsb]. rewrite orb_false_r.
  destruct (applies self event) eqn:Ha; [intros _|discriminate].
  split; [done|]. split; [done|]. by apply applies_needs_rect.
Qed.

(** *** The title, its offsets and the border of the back-box *)

(** [set_title] stores the title and the offsets whatever the render
    that follows does, and [get_title_offset] gives the offsets back,
    truncated to ints. *)
Theorem set_title_round_trip (self : MenuBar) (title : string)
    (offsetx offsety : num) :
  let after := state_of (set_title title offsetx offsety self) in
  _title after = title /\ _offsetx after = offsetx /\ _offsety after = offsety /\
  get_title_offset after
  = (ox ← num_int offsetx; oy ← num_int offsety; Ok (ox, oy)).
Proof.
  intros after.
  assert (_title after = title /\ _offsetx after = offsetx /\
          _offsety after = offsety) as (Ht & Hx & Hy).
  { subst after. unfold set_title.
    erewrite state_of_bind by reflexivity.
    erewrite state_of_bind by reflexivity.
    destruct (_menu _) as [menu|]; [|done].
    match goal with
    | |- context [state_of (?m ?s)] =>
        assert (preserves _title m) as H1 by keep;
        assert (preserves _offsetx m) as H2 by keep;
        assert (preserves _offsety m) as H3 by keep;
        rewrite (H1 s), (H2 s), (H3 s)
    end.
    done. }
  repeat split; try done.
  unfold get_title_offset. by rewrite Hx, Hy.
Qed.

(** [set_backbox_border_width] refuses a width that is not positive and
    leaves the bar as it was; a positive width is stored, and is the
    border of the rect that [_draw] draws for a visible back-box. *)
Theorem backbox_border_width (self : MenuBar) (width : Z) :
  (width <= 0 ->
   set_backbox_border_width width self = (self, [], Raise AssertionError)) /\
  (0 < width ->
   set_backbox_border_width width self
   = (set_backbox_border_width_ width self, [], Ok tt) /\
   _backbox_border_width (set_backbox_border_width_ width self) = width /\
   forall polygon rect glyph surface,
     _polygon_pos self = Some polygon -> _backbox_rect self = Some rect ->
     _backbox_pos self = Some glyph -> _surface self = Some surface ->
     _backbox_visible self = true ->
     DrawRect (_font_selected_color self) rect width
       ∈ effects_of (_draw (set_backbox_border_width_ width self))).
Proof.
  split.
  - intros Hw. unfold set_backbox_border_width. rewrite bind_run.
    apply Z.ltb_ge in Hw. by rewrite Hw.
  - intros Hw. split; [|split; [done|]].
    + unfold set_backbox_border_width. rewrite bind_run.
      apply Z.ltb_lt in Hw. by rewrite Hw.
    + intros polygon rect glyph surface Hp Hr Hg Hs Hv.
      rewrite (draw_run (set_backbox_border_width_ width self) polygon rect
                 glyph surface Hp Hr Hg Hs).
      change (_backbox_visible (set_backbox_border_width_ width self))
        with (_backbox_visible self). rewrite Hv.
      cbn [effects_of fst snd]. rewrite !elem_of_app, !elem_of_cons. auto.
Qed.

(** *** The geometry of a render *)

Lemma backbox_rect_square (self : MenuBar) (cross_size : num) (r : Rect) :
  backbox_rect self cross_size = Ok r ->
  width r = height r /\ y r = y (_rect self) + 4.
Proof.
  unfold backbox_rect. cbv zeta.
  destruct (num_int (_ + 4 - _)%num) as [bx|]; cbn; [|discriminate].
  destruct (num_int (cross_size - _)%num) as [bw|]; cbn; [|discriminate].
  by intros [= <-].
Qed.

(** After a render that recomputes and returns, the surface is the
    rendered title, and the rect keeps its position and has the size of the
    title, 4 px higher for UNDERLINE and 3 px for UNDERLINE_TITLE: the
    height never accumulates over renders.  The back-box, when asked for,
    is a square 4 px below the top of the rect. *)
Theorem render_geometry (self : MenuBar) (menu : Menu) (v : option bool) :
  _menu self = Some menu ->
  _last_render_hash self <> Some (render_args self menu) ->
  value_of (_render self) = Ok v ->
  let after := state_of (_render self) in
  let title := _render_string (_title self) (_font_selected_color self) in
  _surface after = Some (_apply_transforms title) /\
  x (_rect after) = x (_rect self) /\ y (_rect after) = y (_rect self) /\
  width (_rect after) = (get_size title).1 /\
  height (_rect after)
  = (get_size title).2 +
    (if _style self =? MENUBAR_STYLE_UNDERLINE then 4
     else if _style self =? MENUBAR_STYLE_UNDERLINE_TITLE then 3 else 0) /\
  (_backbox self = true ->
   exists r, _backbox_rect after = Some r /\ width r = height r /\
             y r = y (_rect self) + 4).
Proof.
  intros Hm Hh Hv after title. subst after.
  destruct (style_shape (prepared self menu)) as [[[[p b] dy] cs]|] eqn:Hs;
    [|by rewrite (render_invalid_style self menu Hm Hh Hs) in Hv].
  assert (dy = if _style self =? MENUBAR_STYLE_UNDERLINE then 4
               else if _style self =? MENUBAR_STYLE_UNDERLINE_TITLE then 3
               else 0) as Hdy.
  { revert Hs. unfold style_shape. rewrite prepared_style.
    unfold MENUBAR_STYLE_ADAPTIVE, MENUBAR_STYLE_SIMPLE,
      MENUBAR_STYLE_TITLE_ONLY, MENUBAR_STYLE_TITLE_ONLY_DIAGONAL,
      MENUBAR_STYLE_NONE, MENUBAR_STYLE_UNDERLINE, MENUBAR_STYLE_UNDERLINE_TITLE.
    cbv zeta.
    repeat match goal with
           | |- context [_style self =? ?c] =>
               destruct (Z.eqb_spec (_style self) c) as [He|He];
               [rewrite ?He; simpl; by intros [= _ _ <- _]|clear He]
           end.
    done. }
  destruct (render_recomputes self menu p b dy cs Hm Hh Hs) as [w Hr].
  rewrite Hr in Hv |- *. clear Hr. rewrite <- Hdy. clear Hdy.
  destruct (_backbox self).
  - destruct (backbox_rect _ cs) as [r|e] eqn:Hb; [|discriminate Hv].
    repeat split. intros _. exists r. split; [done|].
    apply backbox_rect_square in Hb. done.
  - repeat split. discriminate.
Qed.

(** *** The colour of the title and the style *)

(** [_check_title_color] never raises and never changes the bar.  Over
    an image it says nothing; over a colour it warns, once, exactly when
    each of the red, green and blue channels of the font is less than 5
    away from that of the background, and calls the colours equal exactly
    when the three channels are the same. *)
Theorem check_title_color_warns (background_menu : bool) (self : MenuBar) :
  let c_back :=
    match background_menu, _menu self with
    | true, Some menu => theme_background_color menu
    | _, _ => Plain (_background_color self)
    end in
  exists w,
    _check_title_color background_menu self = (self, w, Ok tt) /\
    match c_back with
    | Image => w = []
    | Plain c =>
        let font := _font_color self in
        if decide (Z.abs (red c - red font) < 5 /\
                   Z.abs (green c - green font) < 5 /\
                   Z.abs (blue c - blue font) < 5)
        then w = [Warn background_menu
                    (bool_decide (red c = red font /\ green c = green font /\
                                  blue c = blue font))]
        else w = []
    end.
Proof.
  intros c_back. unfold _check_title_color.
  rewrite bind_run. cbn [get]. cbv zeta. fold c_back.
  destruct c_back as [c|]; [|by exists []].
  destruct (decide _) as [(H1 & H2 & H3)|Hn].
  - apply Z.ltb_lt in H1 as H1', H2 as H2', H3 as H3'.
    rewrite H1', H2', H3'. cbn [andb]. eexists. split; [reflexivity|].
    cbn [app]. do 2 f_equal.
    destruct (bool_decide_reflect
                (red c = red (_font_color self) /\
                 green c = green (_font_color self) /\
                 blue c = blue (_font_color self))) as [(E1 & E2 & E3)|Hne].
    + rewrite E1, E2, E3, !Z.sub_diag. reflexivity.
    + apply andb_false_iff.
      destruct (Z.eqb_spec (Z.abs (blue c - blue (_font_color self))) 0)
        as [E3|]; [|by right].
      left. apply andb_false_iff.
      destruct (Z.eqb_spec (Z.abs (green c - green (_font_color self)))
                  (Z.abs (blue c - blue (_font_color self))))
        as [E2|]; [|by right].
      left. apply Z.eqb_neq. intros E1. apply Hne. lia.
  - destruct (_ && _) eqn:Hb; [|by exists []]. exfalso. apply Hn.
    apply andb_prop in Hb as [Hb H3]. apply andb_prop in Hb as [H1 H2].
    apply Z.ltb_lt in H1, H2, H3. done.
Qed.

Lemma num_int_errors (n : num) (e : exn) :
  num_int n = Raise e -> e = OverflowError \/ e = ValueError FloatNaNToInt.
Proof.
  destruct n as [z|f]; [discriminate|]. cbn [num_int]. unfold int_of_float.
  destruct (Prim2SF f); intros [= <-]; auto.
Qed.

Lemma backbox_rect_errors (self : MenuBar) (cross_size : num) (e : exn) :
  backbox_rect self cross_size = Raise e ->
  e = OverflowError \/ e = ValueError FloatNaNToInt.
Proof.
  unfold backbox_rect. cbv zeta.
  destruct (num_int (_ + 4 - _)%num) as [bx|e1] eqn:H1; cbn;
    [|intros [= <-]; by apply num_int_errors in H1].
  destruct (num_int (cross_size - _)%num) as [bw|e2] eqn:H2; cbn;
    [discriminate|intros [= <-]; by apply num_int_errors in H2].
Qed.

(** The styles [check_menubar_style] (of [themes.py]) accepts are those
    the bar can render: a render that recomputes raises the [ValueError]
    of an invalid mode exactly for the ints the check refuses. *)
Theorem checked_style_renders (self : MenuBar) (menu : Menu) :
  _menu self = Some menu ->
  _last_render_hash self <> Some (render_args self menu) ->
  (Themes.check_menubar_style (PInt (_style self)) = false <->
   value_of (_render self) = Raise (ValueError InvalidMenubarMode)).
Proof.
  intros Hm Hh.
  assert (Themes.check_menubar_style (PInt (_style self)) = true <->
          _style self ∈ menubar_styles) as Hc.
  { unfold Themes.check_menubar_style, py_in_ints. cbn [as_num num_eqb].
    rewrite existsb_exists. split.
    - intros (z & Hz & He). apply Z.eqb_eq in He. subst z.
      by apply list_elem_of_In.
    - intros Hz. exists (_style self). split; [by apply list_elem_of_In|].
      apply Z.eqb_refl. }
  destruct (style_shape (prepared self menu)) as [[[[p b] dy] cs]|] eqn:Hs.
  - assert (_style self ∈ menubar_styles) as Hv.
    { destruct (decide (_style self ∈ menubar_styles)) as [|Hn]; [done|].
      rewrite <- (prepared_style self menu) in Hn.
      apply style_shape_invalid in Hn. by rewrite Hs in Hn. }
    apply Hc in Hv as Hv'. rewrite Hv'.
    destruct (render_recomputes self menu p b dy cs Hm Hh Hs) as [w ->].
    split; [discriminate|]. destruct (_backbox self); [|discriminate].
    destruct (backbox_rect _ cs) as [r|e] eqn:Hb; [discriminate|].
    cbn [value_of snd]. intros [= ->]. apply backbox_rect_errors in Hb.
    destruct Hb as [Hb|Hb]; discriminate Hb.
  - rewrite (render_invalid_style self menu Hm Hh Hs). split; [done|]. intros _.
    apply not_true_is_false. intros Hv%Hc.
    apply (style_shape_valid (prepared self menu)) in Hv.
    rewrite Hs in Hv. by destruct Hv.
Qed.

End Facts.

Lemma render_point_count_witness :
  length <$> _polygon_pos
    (state_of (_render (Sample.bar (Some (Sample.menu true None))
                          MENUBAR_STYLE_ADAPTIVE true true)))
  = Some 6%nat.
Proof.
  apply (render_point_count
           (Sample.bar (Some (Sample.menu true None)) MENUBAR_STYLE_ADAPTIVE
              true true)
           (Sample.menu true None) eq_refl ltac:(discriminate)).
  reflexivity.
Defined.


Lemma render_backbox_glyph_witness :
  exists (r : Rect) (glyph : list pixel),
    _backbox_rect
      (state_of (_render (Sample.bar (Some (Sample.menu false None))
                            MENUBAR_STYLE_ADAPTIVE true true))) = Some r /\
    _backbox_pos
      (state_of (_render (Sample.bar (Some (Sample.menu false None))
                            MENUBAR_STYLE_ADAPTIVE true true))) = Some glyph /\
    length glyph = 8%nat.
Proof.
  destruct (render_backbox_glyph
              (Sample.bar (Some (Sample.menu false None)) MENUBAR_STYLE_ADAPTIVE
                 true true)
              (Sample.menu false None) None eq_refl eq_refl
              ltac:(discriminate) ltac:(vm_compute; reflexivity))
    as (r & glyph & Hr & Hg & _ & Hl & _).
  by exists r, glyph.
Defined.

Lemma scrollbar_style_change_witness :
  value_of (get_scrollbar_style_change POSITION_EAST
              (Sample.bar (Some (Sample.menu true None)) MENUBAR_STYLE_ADAPTIVE
                 true true))
  = Ok (NFloat 20, (NInt 0, NFloat (-20))).
Proof.
  assert (_render (Sample.bar (Some (Sample.menu true None))
                     MENUBAR_STYLE_ADAPTIVE true true)
          = (state_of (_render (Sample.bar (Some (Sample.menu true None))
                                  MENUBAR_STYLE_ADAPTIVE true true)),
             [], Ok None)) as Hr.
  { vm_compute. reflexivity. }
  destruct (scrollbar_style_change _ POSITION_EAST _ _ _ Hr) as (_ & _ & _ & Hd).
  destruct (Hd eq_refl eq_refl eq_refl) as (_ & _ & _ & _ & Hm).
  exact (Hm (Sample.menu true None) eq_refl ltac:(discriminate)).
Defined.

(** C5, as the claim has it, fails: an ADAPTIVE bar asked for the east
    position returns the zero change when it was constructed with
    [modify_scrollarea=False], although the vertices 4 and 2 of its
    polygon are 50 - 30 = 20 px apart. *)
Lemma scrollbar_style_change_needs_modify_scrollarea :
  _style (Sample.bar (Some (Sample.menu true None)) MENUBAR_STYLE_ADAPTIVE
            true false) = MENUBAR_STYLE_ADAPTIVE /\
  value_of (get_scrollbar_style_change POSITION_EAST
              (Sample.bar (Some (Sample.menu true None)) MENUBAR_STYLE_ADAPTIVE
                 true false))
  = Ok (NInt 0, (NInt 0, NInt 0)) /\
  _polygon_pos
    (state_of (get_scrollbar_style_change POSITION_EAST
                 (Sample.bar (Some (Sample.menu true None))
                    MENUBAR_STYLE_ADAPTIVE true false))) ≫= (.!! 4%nat)
  = Some (NInt 90, NInt 50) /\
  _polygon_pos
    (state_of (get_scrollbar_style_change POSITION_EAST
                 (Sample.bar (Some (Sample.menu true None))
                    MENUBAR_STYLE_ADAPTIVE true false))) ≫= (.!! 2%nat)
  = Some (NInt 399, NFloat 30) /\
  (NInt 50 - NFloat 30)%num = NFloat 20.
Proof. repeat split; vm_compute; reflexivity. Qed.

Lemma scrollbar_style_change_unmodified_witness :
  value_of (get_scrollbar_style_change POSITION_EAST
              (Sample.bar (Some (Sample.menu true None)) MENUBAR_STYLE_ADAPTIVE
                 true false))
  = Ok (NInt 0, (NInt 0, NInt 0)).
Proof.
  exact (proj2 scrollbar_style_change_unmodified
           (Sample.bar (Some (Sample.menu true None)) MENUBAR_STYLE_ADAPTIVE
              true false)
           POSITION_EAST eq_refl).
Defined.

Lemma backbox_visible_iff_witness :
  update [MOUSEBUTTONUP 1 (385, 10)]
    (state_of (_render (Sample.bar (Some (Sample.menu false None))
                          MENUBAR_STYLE_ADAPTIVE true true)))
  = (state_of (_render (Sample.bar (Some (Sample.menu false None))
                          MENUBAR_STYLE_ADAPTIVE true true)),
     [CheckMouseover (MOUSEBUTTONUP 1 (385, 10)); PlayClickMouse; Apply;
      ApplyUpdateCallbacks],
     Ok true).
Proof.
  assert (_backbox_rect
            (state_of (_render (Sample.bar (Some (Sample.menu false None))
                                  MENUBAR_STYLE_ADAPTIVE true true)))
          = Some {| x := 374; y := 4; width := 22; height := 22 |}) as Hr.
  { vm_compute. reflexivity. }
  destruct (backbox_visible_iff
              (state_of (_render (Sample.bar (Some (Sample.menu false None))
                                    MENUBAR_STYLE_ADAPTIVE true true))))
    as (_ & _ & _ & _ & Hc).
  destruct (Hc {| x := 374; y := 4; width := 22; height := 22 |} 385 10
              eq_refl eq_refl Hr eq_refl eq_refl) as [Hclick _].
  exact (Hclick 1 eq_refl ltac:(apply list_elem_of_here)).
Defined.

(** C8, as the claim has it, fails: the close button of a root menu
    without [onclose] is not visible, and yet a click on its rect plays
    the sound, applies the bar and makes [update] return [True]. *)
Lemma hidden_backbox_takes_clicks :
  _backbox_visible
    (state_of (_render (Sample.bar (Some (Sample.menu true None))
                          MENUBAR_STYLE_ADAPTIVE true true))) = false /\
  update [MOUSEBUTTONUP 1 (385, 10)]
    (state_of (_render (Sample.bar (Some (Sample.menu true None))
                          MENUBAR_STYLE_ADAPTIVE true true)))
  = (state_of (_render (Sample.bar (Some (Sample.menu true None))
                          MENUBAR_STYLE_ADAPTIVE true true)),
     [PlayClickMouse; Apply; ApplyUpdateCallbacks], Ok true).
Proof. split; vm_compute; reflexivity. Qed.

Lemma bar_without_menu_witness :
  _draw (Sample.bar None MENUBAR_STYLE_ADAPTIVE true true)
  = (Sample.bar None MENUBAR_STYLE_ADAPTIVE true true, [], Raise TypeError) /\
  get_scrollbar_style_change POSITION_EAST
    (Sample.bar None MENUBAR_STYLE_ADAPTIVE true true)
  = (Sample.bar None MENUBAR_STYLE_ADAPTIVE true true, [], Raise TypeError).
Proof.
  destruct (bar_without_menu (Sample.bar None MENUBAR_STYLE_ADAPTIVE true true)
              "Menu" (NInt 0) (NInt 0) POSITION_EAST eq_refl) as (_ & _ & Hp).
  exact (Hp eq_refl).
Defined.


Lemma render_invalid_style_once_witness :
  value_of (_render (Sample.bar (Some (Sample.menu true None)) 7 true true))
  = Raise (ValueError InvalidMenubarMode) /\
  value_of (_render (state_of (_render (Sample.bar (Some (Sample.menu true None))
                                          7 true true))))
  = Ok (Some true).
Proof.
  assert (7 ∉ menubar_styles) as Hs.
  { apply (bool_decide_eq_false_1 _). vm_compute. reflexivity. }
  destruct (render_invalid_style_once
              (Sample.bar (Some (Sample.menu true None)) 7 true true)
              (Sample.menu true None) eq_refl ltac:(discriminate) Hs)
    as (Hr & _ & Ht).
  rewrite Hr. cbn [state_of value_of fst snd]. by rewrite Ht.
Defined.

Lemma update_applies_inside_rect_witness :
  is_visible (state_of (_render (Sample.bar (Some (Sample.menu false None))
                                   MENUBAR_STYLE_ADAPTIVE true true))) = true.
Proof.
  assert (value_of
            (update [MOUSEBUTTONUP 1 (385, 10)]
               (state_of (_render (Sample.bar (Some (Sample.menu false None))
                                     MENUBAR_STYLE_ADAPTIVE true true))))
          = Ok true) as Hu.
  { vm_compute. reflexivity. }
  exact (proj1 (proj2 (update_applies_inside_rect _ _ Hu))).
Defined.

Lemma backbox_border_width_witness :
  set_backbox_border_width 3 (Sample.bar None MENUBAR_STYLE_SIMPLE true true)
  = (set_backbox_border_width_ 3 (Sample.bar None MENUBAR_STYLE_SIMPLE true true),
     [], Ok tt).
Proof.
  exact (proj1 (proj2 (backbox_border_width
                         (Sample.bar None MENUBAR_STYLE_SIMPLE true true) 3)
                 ltac:(lia))).
Defined.

Lemma render_geometry_witness :
  height (_rect (state_of (_render (Sample.bar (Some (Sample.menu true None))
                                      MENUBAR_STYLE_UNDERLINE true true))))
  = 54.
Proof.
  assert (value_of (_render (Sample.bar (Some (Sample.menu true None))
                               MENUBAR_STYLE_UNDERLINE true true)) = Ok None)
    as Hv.
  { vm_compute. reflexivity. }
  destruct (render_geometry
              (Sample.bar (Some (Sample.menu true None)) MENUBAR_STYLE_UNDERLINE
                 true true)
              (Sample.menu true None) None eq_refl
              ltac:(discriminate) Hv) as (_ & _ & _ & _ & Hh & _).
  exact Hh.
Defined.

Lemma checked_style_renders_witness :
  value_of (_render (Sample.bar (Some (Sample.menu true None)) 999 true true))
  = Raise (ValueError InvalidMenubarMode).
Proof.
  apply (checked_style_renders
           (Sample.bar (Some (Sample.menu true None)) 999 true true)
           (Sample.menu true None) eq_refl ltac:(discriminate)).
  reflexivity.
Defined.

End MenubarFacts.
